(** * AlleleAnalyzer: the interval extractor and the cohort aggregator

    A shallow embedding of
    - [preprocessing/generate_gens_dfs/get_chr_tables.py] (module [GetChrTables]),
    - [manuscript_analyses/paper_figures/figure_scripts/ef_fig_1e.py]
      (module [EfFig1e]),
    over a small model of the Python and pandas operations the two scripts
    use (modules [Py] and [Pd]), followed by the properties proved of them. *)

From Stdlib Require Import ZArith List String Ascii Bool Lia DecimalString.
From Stdlib Require Import PrimFloat Uint63.
From stdpp Require Import gmap strings.

Local Open Scope string_scope.
Local Open Scope list_scope.

(** ** Python values, exceptions and string operations *)

Module Py.

(** The exceptions the two scripts can meet. [SystemExit] is what the
    builtin [exit()] raises. *)
Inductive exn : Set :=
| TypeError
| ValueError
| KeyError
| IndexError
| NameError
| FileNotFoundError
| SystemExit.

Inductive result (A : Type) : Type :=
| Ok (a : A)
| Raise (e : exn).
Arguments Ok {A} a.
Arguments Raise {A} e.

Definition bind {A B} (m : result A) (f : A -> result B) : result B :=
  match m with
  | Ok a => f a
  | Raise e => Raise e
  end.

Fixpoint mapM {A B} (f : A -> result B) (l : list A) : result (list B) :=
  match l with
  | [] => Ok []
  | x :: xs =>
      bind (f x) (fun y => bind (mapM f xs) (fun ys => Ok (y :: ys)))
  end.

Fixpoint filterM {A} (f : A -> result bool) (l : list A) : result (list A) :=
  match l with
  | [] => Ok []
  | x :: xs =>
      bind (f x) (fun b =>
      bind (filterM f xs) (fun ys => Ok (if b then x :: ys else ys)))
  end.

(** [sub in s] *)
Fixpoint contains (sub s : string) : bool :=
  String.prefix sub s ||
  match s with
  | EmptyString => false
  | String _ s' => contains sub s'
  end.

(** [s.startswith(p)] and [s.endswith(p)] *)
Definition startswith (s p : string) : bool := String.prefix p s.

Definition endswith (s p : string) : bool :=
  (String.length p <=? String.length s)%nat &&
  String.eqb (substring (String.length s - String.length p) (String.length p) s) p.

(** [s.replace(old, new)] for a non-empty [old]: a left-to-right scan that
    replaces every non-overlapping occurrence. [skip] counts the
    characters of a matched occurrence that are still to be dropped. *)
Fixpoint replace_from (old new : string) (skip : nat) (s : string) : string :=
  match s with
  | EmptyString => EmptyString
  | String c s' =>
      match skip with
      | S k => replace_from old new k s'
      | O =>
          if String.prefix old s
          then new +:+ replace_from old new (String.length old - 1) s'
          else String c (replace_from old new 0 s')
      end
  end.

Definition replace (s old new : string) : string := replace_from old new 0 s.

(** [re.split(p, s)] for a pattern [p] that is an alternation of single
    literal characters ([';|,'], ['/|\|']); [alts] lists the characters.
    The result always has one more element than there are separators. *)
Definition is_alt (alts : list ascii) (c : ascii) : bool :=
  existsb (Ascii.eqb c) alts.

Fixpoint re_split (alts : list ascii) (s : string) : list string :=
  match s with
  | EmptyString => [EmptyString]
  | String c s' =>
      if is_alt alts c then EmptyString :: re_split alts s'
      else
        match re_split alts s' with
        | [] => [String c EmptyString]
        | w :: ws => String c w :: ws
        end
  end.

(** [s.split(sep)] for a one-character [sep] *)
Definition split (s : string) (sep : ascii) : list string := re_split [sep] s.

(** [l[i]] *)
Definition index {A} (l : list A) (i : nat) : result A :=
  match l !! i with
  | Some x => Ok x
  | None => Raise IndexError
  end.

(** [str(n)] for an integer *)
Definition str_of_Z (z : Z) : string := NilZero.string_of_int (Z.to_int z).

End Py.

Export Py.

Declare Scope py_scope.
Delimit Scope py_scope with py.
Notation "'let*' x ':=' m 'in' k" := (Py.bind m (fun x => k))
  (at level 10, x name, m at level 100, k at level 200) : py_scope.
Local Open Scope py_scope.

(** ** The pandas operations the scripts use *)

Module Pd.

(** A cell of a frame: [read_csv] infers integer columns (positions, and
    chromosome names such as [1]) and keeps the others as strings; boolean
    cells are those of the [het] helper column and of the targetability
    tables. *)
Inductive cell : Set :=
| CInt (z : Z)
| CStr (s : string)
| CBool (b : bool).

(** [str(cell)] *)
Definition str (c : cell) : string :=
  match c with
  | CInt z => str_of_Z z
  | CStr s => s
  | CBool true => "True"
  | CBool false => "False"
  end.

(** A frame: its column labels and its rows, each row holding one cell
    per column, in column order. *)
Record DataFrame : Set := mkDataFrame {
  columns : list string;
  rows : list (list cell)
}.

(** [df.empty]: some axis has length zero *)
Definition empty (df : DataFrame) : bool :=
  match columns df, rows df with
  | _ :: _, _ :: _ => false
  | _, _ => true
  end.

(** [df.shape[0]] *)
Definition shape0 (df : DataFrame) : nat := length (rows df).

Fixpoint index_of (name : string) (cols : list string) : option nat :=
  match cols with
  | [] => None
  | c :: cs =>
      if String.eqb c name then Some 0
      else option_map S (index_of name cs)
  end.

(** [row[name]] for a row of a frame with column labels [cols] *)
Definition getitem (cols : list string) (row : list cell) (name : string)
  : result cell :=
  match index_of name cols with
  | Some i =>
      match row !! i with
      | Some c => Ok c
      | None => Raise KeyError
      end
  | None => Raise KeyError
  end.

(** [df[name]]: the cells of one column *)
Definition column (df : DataFrame) (name : string) : result (list cell) :=
  mapM (fun row => getitem (columns df) row name) (rows df).

(** [df[name] = vals], for [vals] of the frame's length: an existing
    column is overwritten in place, a new one is added last. *)
Definition setitem (df : DataFrame) (name : string) (vals : list cell)
  : DataFrame :=
  match index_of name (columns df) with
  | Some i =>
      {| columns := columns df;
         rows := zip_with (fun row v => <[i := v]> row) (rows df) vals |}
  | None =>
      {| columns := columns df ++ [name];
         rows := zip_with (fun row v => row ++ [v]) (rows df) vals |}
  end.

(** [df[[n1, ..., nk]]]: projection on the listed columns, in that order *)
Definition select (df : DataFrame) (names : list string) : result DataFrame :=
  let* _ := mapM (fun n => match index_of n (columns df) with
                           | Some i => Ok i
                           | None => Raise KeyError
                           end) names in
  let* rs := mapM (fun row => mapM (getitem (columns df) row) names)
                  (rows df) in
  Ok {| columns := names; rows := rs |}.

(** [df.applymap(f)]: [f] on every cell *)
Definition applymap (f : cell -> result cell) (df : DataFrame)
  : result DataFrame :=
  let* rs := mapM (mapM f) (rows df) in
  Ok {| columns := columns df; rows := rs |}.

(** [df.apply(f, axis=1)]: [f] on every row *)
Definition apply_rows (f : list cell -> result cell) (df : DataFrame)
  : result (list cell) :=
  mapM f (rows df).

(** The query expressions the scripts use: a boolean column, or the
    disjunction of two expressions. *)
Inductive expr : Set :=
| QCol (name : string)
| QOr (e1 e2 : expr).

(** Name resolution: an undefined column makes the query fail, whatever
    the rows. *)
Fixpoint resolves (cols : list string) (e : expr) : bool :=
  match e with
  | QCol n => match index_of n cols with Some _ => true | None => false end
  | QOr e1 e2 => resolves cols e1 && resolves cols e2
  end.

Fixpoint eval (cols : list string) (row : list cell) (e : expr)
  : result bool :=
  match e with
  | QCol n =>
      let* c := getitem cols row n in
      match c with
      | CBool b => Ok b
      | _ => Raise TypeError
      end
  | QOr e1 e2 =>
      let* b1 := eval cols row e1 in
      let* b2 := eval cols row e2 in
      Ok (b1 || b2)
  end.

(** [df.query(e)]: the rows on which [e] is true *)
Definition query (df : DataFrame) (e : expr) : result DataFrame :=
  if resolves (columns df) e then
    let* rs := filterM (fun row => eval (columns df) row e) (rows df) in
    Ok {| columns := columns df; rows := rs |}
  else Raise NameError.

End Pd.

Export Pd.

(** ** get_chr_tables.py *)

Module GetChrTables.

Definition REQUIRED_BCFTOOLS_VER : float := 1.5%float.

Definition norm_chr (chrom_str : string) (vcf_chrom : bool) : string :=
  if vcf_chrom then replace chrom_str "chr" ""
  else "chr" +:+ chrom_str.

(** A call [norm_chr(a1, ..., an)]: the function has two positional
    parameters and no defaults, so a call with another number of
    arguments raises [TypeError] before the body runs. *)
Definition call_norm_chr (args : list cell) : result string :=
  match args with
  | [CStr chrom_str; CBool vcf_chrom] => Ok (norm_chr chrom_str vcf_chrom)
  | _ => Raise TypeError
  end.

Definition splitters : list string := [","; ";"].

Definition fix_multiallelics (cell : Pd.cell) : result Pd.cell :=
  if existsb (fun splitter => contains splitter (str cell)) splitters
  then
    match cell with
    | CStr s =>
        let* tok := index (re_split [";"%char; ","%char] s) 0 in
        Ok (CStr tok)
    | _ => Raise TypeError
    end
  else Ok cell.

Definition het (genotype : Pd.cell) : result bool :=
  match genotype with
  | CStr g =>
      match re_split ["/"%char; "|"%char] g with
      | [gen1; gen2] => Ok (negb (String.eqb gen1 gen2))
      | _ => Raise ValueError
      end
  | _ => Raise TypeError
  end.

Definition gens_columns : list string :=
  ["chrom"; "pos"; "ref"; "alt"; "genotype"].

Definition filter_hets (gens_df : DataFrame) : result DataFrame :=
  let* hets :=
    apply_rows (fun row =>
                  let* g := getitem (columns gens_df) row "genotype" in
                  let* b := het g in
                  Ok (CBool b)) gens_df in
  let gens_df := setitem gens_df "het" hets in
  let* out := query gens_df (QCol "het") in
  select out gens_columns.

(** *** The command line and the world around [main] *)

Record Args : Set := mkArgs {
  vcf_file : string;
  locus : string;
  outdir : string;
  name : string;
  opt_f : bool;
  opt_bed : bool
}.

(** A line of the BED file, as [read_csv] gives it with the names
    [chr], [start], [stop], [locus]. *)
Record BedRow : Set := mkBedRow {
  bed_chr : cell;
  bed_start : Z;
  bed_stop : Z;
  bed_locus : string
}.

(** A line of the output of the [bcftools view | norm | query] pipe. *)
Record VariantLine : Set := mkVariantLine {
  v_chrom : cell;
  v_pos : cell;
  v_ref : cell;
  v_alt : cell;
  v_genotype : cell
}.

(** What the script gets from outside: the installed bcftools version
    and what [float] makes of it, the address the interpreter gives a
    process handle, the first field of the last line of a VCF file (what
    [gzcat f | tail -1 | cut -f1] prints), the BED file, and the lines
    the bcftools pipe prints for a [bcftools view] command. *)
Record Env : Type := mkEnv {
  bcftools_version : string;
  float_of_version : result float;
  popen_addr : string -> string;
  vcf_last_chrom : string -> string;
  read_bed : string -> list BedRow;
  bcftools_lines : string -> list VariantLine
}.

(** What the script does to the outside, in order. [ChildStdout] is the
    output of a child process started without a pipe: it goes to the
    terminal, not to the script. *)
Inductive event : Set :=
| Print (msg : string)
| Makedirs (dir : string)
| Shell (cmd : string)
| ChildStdout (out : string)
| WriteFile (path : string)
| Remove (path : string)
| OpenStore (path : string)
| Put (key : string) (value : DataFrame)
| ToHdf (path key : string) (value : DataFrame).

(** Computations that act on the outside and may raise. *)
Definition M (A : Type) : Type := (list event * result A)%type.

Definition ret {A} (a : A) : M A := ([], Ok a).
Definition emit (e : event) : M unit := ([e], Ok tt).
Definition raise {A} (e : exn) : M A := ([], Raise e).
Definition lift {A} (r : result A) : M A := ([], r).

Definition bindM {A B} (m : M A) (f : A -> M B) : M B :=
  match m with
  | (t, Ok a) => let '(t', r) := f a in (t ++ t', r)
  | (t, Raise e) => (t, Raise e)
  end.

Local Notation "'let+' x ':=' m 'in' k" := (bindM m (fun x => k))
  (at level 10, x name, m at level 100, k at level 200).
Local Notation "m1 ;; m2" := (bindM m1 (fun _ => m2))
  (at level 100, m2 at level 200, right associativity).

(** [for x in l: body(x)] *)
Fixpoint for_each {A} (body : A -> M unit) (l : list A) : M unit :=
  match l with
  | [] => ret tt
  | x :: xs => body x ;; for_each body xs
  end.

(** [str(p)] for a [subprocess.Popen] object [p]. In the Python 3.6 the
    script is written for, the class defines neither [__str__] nor
    [__repr__], so this is the default [<... object at 0x...>]; later
    versions print [<Popen: returncode: ... args: ...>]. Either way the
    text starts with [<]. *)
Definition str_Popen (addr : string) : string :=
  "<subprocess.Popen object at " +:+ addr +:+ ">".

(** [os.path.join(a, b)] *)
Definition path_join (a b : string) : string :=
  if startswith b "/" then b
  else if String.eqb a "" || endswith a "/" then a +:+ b
  else a +:+ "/" +:+ b.

(** [pd.read_csv(temp_file_name, sep='\t', header=None, names=..., usecols=...)] *)
Definition read_csv (lines : list VariantLine) : DataFrame :=
  {| columns := gens_columns;
     rows := map (fun l => [v_chrom l; v_pos l; v_ref l; v_alt l; v_genotype l])
                 lines |}.

Definition check_bcftools (env : Env) : M unit :=
  emit (Shell "bcftools -v | head -1 | cut -d ' ' -f2") ;;
  let version := bcftools_version env in
  let+ v := lift (float_of_version env) in
  if PrimFloat.leb REQUIRED_BCFTOOLS_VER v
  then emit (Print ("bcftools version " +:+ version +:+ " running"))
  else
    emit (Print ("Error: bcftools must be >=1.5. Current version: " +:+ version)) ;;
    raise SystemExit.

(** The probe of lines 97 and 164: the child's output is not captured;
    [vcf_chrom] is the text of the process handle. *)
Definition probe_cmd (vcf_in : string) : string :=
  "gzcat " +:+ vcf_in +:+ " | tail -1 | cut -f1".

Definition probe (env : Env) (vcf_in : string) : M string :=
  emit (Shell (probe_cmd vcf_in)) ;;
  emit (ChildStdout (vcf_last_chrom env vcf_in)) ;;
  ret (str_Popen (popen_addr env (probe_cmd vcf_in))).

Definition bcl_v (chr_name start stop vcf : string) : string :=
  "bcftools view -r " +:+ chr_name +:+ ":" +:+ start +:+ "-" +:+ stop
    +:+ " " +:+ vcf.

(** The three-stage pipe and the temporary file, lines 112-131 and
    169-188. *)
Definition pipeline (env : Env) (cmd temp_file_name : string) : M DataFrame :=
  emit (Shell cmd) ;;
  emit (Shell "bcftools norm -m -") ;;
  emit (Shell "bcftools query -f '%CHROM\t%POS\t%REF\t%ALT[\t%TGT]\n'") ;;
  emit (WriteFile temp_file_name) ;;
  ret (read_csv (bcftools_lines env cmd)).

(** Lines 143-144. *)
Definition renorm (vars : DataFrame) : result DataFrame :=
  let* chroms := column vars "chrom" in
  let* c0 := index chroms 0 in
  if contains "chr" (str c0) then
    let* chroms' := mapM (fun x => call_norm_chr [x]) chroms in
    Ok (setitem vars "chrom" (map CStr chroms'))
  else Ok vars.

(** Lines 146-149 and 197-200. *)
Definition vars_fixed (f : bool) (vars : DataFrame) : result DataFrame :=
  if f then applymap fix_multiallelics vars
  else
    let* cleaned := applymap fix_multiallelics vars in
    filter_hets cleaned.

(** Lines 133-154: what the loop body does with the table of one
    interval; a branch that ends in [continue] ends the body. *)
Definition bed_store (args : Args) (row : BedRow) (temp_file_name : string)
    (vars : DataFrame) : M unit :=
  if empty vars && opt_f args then
    emit (Print "No variants in this region for this individual. Moving on.") ;;
    emit (Remove temp_file_name)
  else if empty vars && negb (opt_f args) then
    emit (Print "No heterozygous variants in this region for this individual. Moving on.") ;;
    emit (Remove temp_file_name)
  else
    let+ vars := lift (renorm vars) in
    let+ fixed := lift (vars_fixed (opt_f args) vars) in
    emit (Put (bed_locus row) fixed) ;;
    emit (Print ("{'" +:+ bed_locus row +:+ "'} done.")) ;;
    emit (Remove temp_file_name).

(** The body of the loop over the BED file, lines 95-154. *)
Definition bed_body (env : Env) (args : Args) (row : BedRow) : M unit :=
  let vcf_in := vcf_file args in
  let+ vcf_chrom := probe env vcf_in in
  let chrstart := if startswith vcf_chrom "chr" then true else false in
  let chrom := str (bed_chr row) in
  let start := bed_start row in
  let stop := bed_stop row in
  let chr_name := norm_chr chrom chrstart in
  let cmd := bcl_v chr_name (str_of_Z start) (str_of_Z stop) (vcf_file args) in
  let temp_file_name := outdir args +:+ "/" +:+ chrom +:+ "_prechrtable.txt" in
  let+ vars := pipeline env cmd temp_file_name in
  bed_store args row temp_file_name vars.

(** Lines 190-209: what the single-locus branch does with its table. *)
Definition single_store (args : Args) (chrom temp_file_name : string)
    (vars : DataFrame) : M unit :=
  if empty vars && opt_f args then
    emit (Print "No variants in this region for this individual. Exiting.") ;;
    raise SystemExit
  else if empty vars && negb (opt_f args) then
    emit (Print "No heterozygous variants in this region for this individual. Exiting.") ;;
    raise SystemExit
  else
    let+ fixed := lift (vars_fixed (opt_f args) vars) in
    let outname :=
      if negb (String.eqb (name args) "") then name args +:+ ".hdf5"
      else "chr" +:+ chrom +:+ "_gens.hdf5" in
    emit (ToHdf (path_join (outdir args) outname) "all" fixed) ;;
    emit (Remove temp_file_name).

(** The single-locus branch, lines 160-209. *)
Definition single_locus (env : Env) (args : Args) : M unit :=
  let vcf_in := vcf_file args in
  emit (Print "Running single locus") ;;
  let+ vcf_chrom := probe env vcf_in in
  let+ c := lift (index (split (locus args) ":") 0) in
  let chrom := norm_chr c (startswith vcf_chrom "chr") in
  let+ range := lift (index (split (locus args) ":") 1) in
  let+ start := lift (index (split range "-") 0) in
  let+ range' := lift (index (split (locus args) ":") 1) in
  let+ stop := lift (index (split range' "-") 1) in
  let cmd := bcl_v chrom start stop (vcf_file args) in
  let temp_file_name := outdir args +:+ "/" +:+ chrom +:+ "_prechrtable.txt" in
  let+ vars := pipeline env cmd temp_file_name in
  single_store args chrom temp_file_name vars.

Definition main (env : Env) (args : Args) : M unit :=
  emit (Makedirs (outdir args)) ;;
  check_bcftools env ;;
  if opt_bed args then
    let bed_file := locus args in
    emit (Print ("Analyzing BED file " +:+ bed_file)) ;;
    emit (OpenStore (path_join (outdir args) (name args +:+ ".h5"))) ;;
    for_each (bed_body env args) (read_bed env bed_file)
  else if endswith (locus args) ".bed" || endswith (locus args) ".BED" then
    emit (Print "Must specify --bed if inputting a BED file. Exiting.") ;;
    raise SystemExit
  else
    single_locus env args.

End GetChrTables.

(** ** ef_fig_1e.py *)

Module EfFig1e.

Definition cas_list : list string :=
  ["SpCas9"; "SpCas9_VRER"; "SpCas9_EQR"; "SpCas9_VQR_1"; "SpCas9_VQR_2";
   "StCas9"; "StCas9_2"; "SaCas9"; "SaCas9_KKH"; "nmCas9"; "cjCas9"; "cpf1"].

(** [n / 2504.0] for a row count [n]: the count is converted to a double
    and divided in IEEE 754 binary64, rounding to nearest. Counts are
    below [2^63]. *)
Definition float_of_count (n : nat) : float :=
  PrimFloat.of_uint63 (Uint63.of_Z (Z.of_nat n)).

Definition frac (n : nat) : float :=
  PrimFloat.div (float_of_count n) 2504%float.

(** The script's mutable globals, and what it has printed. *)
Record State : Set := mkState {
  cases : list string;
  genes : list string;
  perc_ppl_targ : list float;
  counter : Z;
  not_eval : list string;
  printed : list Z
}.

Definition St (A : Type) : Type := State -> State * result A.

Definition retS {A} (a : A) : St A := fun s => (s, Ok a).
Definition liftS {A} (r : result A) : St A := fun s => (s, r).

Definition bindS {A B} (m : St A) (f : A -> St B) : St B :=
  fun s =>
    match m s with
    | (s', Ok a) => f a s'
    | (s', Raise e) => (s', Raise e)
    end.

Local Notation "'let+' x ':=' m 'in' k" := (bindS m (fun x => k))
  (at level 10, x name, m at level 100, k at level 200).
Local Notation "m1 ;; m2" := (bindS m1 (fun _ => m2))
  (at level 100, m2 at level 200, right associativity).

Definition genes_append (g : string) : St unit :=
  fun s => (mkState (cases s) (genes s ++ [g]) (perc_ppl_targ s)
                    (counter s) (not_eval s) (printed s), Ok tt).

Definition cases_append (c : string) : St unit :=
  fun s => (mkState (cases s ++ [c]) (genes s) (perc_ppl_targ s)
                    (counter s) (not_eval s) (printed s), Ok tt).

Definition perc_ppl_targ_append (x : float) : St unit :=
  fun s => (mkState (cases s) (genes s) (perc_ppl_targ s ++ [x])
                    (counter s) (not_eval s) (printed s), Ok tt).

Definition not_eval_append (g : string) : St unit :=
  fun s => (mkState (cases s) (genes s) (perc_ppl_targ s)
                    (counter s) (not_eval s ++ [g]) (printed s), Ok tt).

Definition counter_incr : St unit :=
  fun s => (mkState (cases s) (genes s) (perc_ppl_targ s)
                    (counter s + 1) (not_eval s) (printed s), Ok tt).

Definition print_remaining (n_genes : Z) : St unit :=
  fun s => (mkState (cases s) (genes s) (perc_ppl_targ s)
                    (counter s) (not_eval s)
                    (printed s ++ [(n_genes - counter s)%Z]), Ok tt).

(** [try: body except FileNotFoundError: handler]. The lists are mutated
    in place, so the handler sees what the body did before it raised. *)
Definition try_except_FileNotFoundError (body handler : St unit) : St unit :=
  fun s =>
    match body s with
    | (s', Raise FileNotFoundError) => handler s'
    | r => r
    end.

Fixpoint for_eachS {A} (body : A -> St unit) (l : list A) : St unit :=
  match l with
  | [] => retS tt
  | x :: xs => body x ;; for_eachS body xs
  end.

(** [pd.read_hdf(path)] on a directory of stored tables *)
Definition read_hdf (fs : gmap string DataFrame) (path : string)
  : result DataFrame :=
  match fs !! path with
  | Some df => Ok df
  | None => Raise FileNotFoundError
  end.

(** [df.query(e).shape[0]/2504.0] *)
Definition targ_frac (df : DataFrame) (e : expr) : result float :=
  let* q := query df e in
  Ok (frac (shape0 q)).

(** The body of [for cas in cas_list], lines 36-45. *)
Definition cas_body (gene : string) (df : DataFrame) (cas : string) : St unit :=
  if String.eqb cas "SpCas9_VQR_1" then
    genes_append gene ;;
    cases_append "SpCas9_VQR" ;;
    let+ x := liftS (targ_frac df (QOr (QCol "targ_SpCas9_VQR_1")
                                      (QCol "targ_SpCas9_VQR_2"))) in
    perc_ppl_targ_append x
  else if String.eqb cas "SpCas9_VQR_2" then
    retS tt
  else
    genes_append gene ;;
    cases_append cas ;;
    let+ x := liftS (targ_frac df (QCol ("targ_" +:+ cas))) in
    perc_ppl_targ_append x.

(** The body of [for gene in genes_eval], lines 28-48. *)
Definition gene_body (fs : gmap string DataFrame) (argv2 : string)
    (n_genes : Z) (gene : string) : St unit :=
  counter_incr ;;
  try_except_FileNotFoundError
    (print_remaining n_genes ;;
     let+ df := liftS (read_hdf fs (argv2 +:+ gene +:+ ".h5")) in
     genes_append gene ;;
     cases_append "all" ;;
     let+ x := liftS (targ_frac df (QCol "targ_all")) in
     perc_ppl_targ_append x ;;
     for_eachS (cas_body gene df) cas_list)
    (not_eval_append gene).

Definition init : State :=
  mkState [] [] [] (-1) [] [].

(** A row of the summary, in the order of the dictionary given to
    [pd.DataFrame]: Cas, Gene, % people targetable. *)
Record SummaryRow : Set := mkSummaryRow {
  row_cas : string;
  row_gene : string;
  row_perc : float
}.

Fixpoint zip3 (cs gs : list string) (ps : list float) : list SummaryRow :=
  match cs, gs, ps with
  | c :: cs', g :: gs', p :: ps' => mkSummaryRow c g p :: zip3 cs' gs' ps'
  | _, _, _ => []
  end.

(** [pd.DataFrame({...})]: the three lists must have one length. *)
Definition overall_df (s : State) : result (list SummaryRow) :=
  if (length (cases s) =? length (genes s))%nat
     && (length (genes s) =? length (perc_ppl_targ s))%nat
  then Ok (zip3 (cases s) (genes s) (perc_ppl_targ s))
  else Raise ValueError.

(** What the script leaves behind: the two files, by path. *)
Record Output : Set := mkOutput {
  not_eval_path : string;
  not_eval_txt : string;
  summary_path : string;
  summary : list SummaryRow
}.

Definition not_eval_lines (l : list string) : string :=
  fold_right (fun gene acc => gene +:+ String "010" acc) "" l.

(** The whole script: [argv1] is read as [genes_eval], the list of its
    lines. An exception other than the [FileNotFoundError] caught in the
    loop ends the run before any file is written. *)
Definition script (fs : gmap string DataFrame) (genes_eval : list string)
    (argv2 argv3 : string) : result Output :=
  let n_genes := Z.of_nat (length genes_eval) in
  match for_eachS (gene_body fs argv2 n_genes) genes_eval init with
  | (s, Ok _) =>
      let* df := overall_df s in
      Ok {| not_eval_path := argv3 +:+ "not_eval.txt";
            not_eval_txt := not_eval_lines (not_eval s);
            summary_path := argv3 +:+ "targ_per_gene_and_cas.tsv";
            summary := df |}
  | (_, Raise e) => Raise e
  end.

End EfFig1e.

Import GetChrTables.
Import EfFig1e.

(** * The vocabulary of the properties *)

(** The number of characters of [s] that are among [alts]. *)
Fixpoint count_alts (alts : list ascii) (s : string) : nat :=
  match s with
  | EmptyString => 0
  | String c s' => (if is_alt alts c then 1 else 0) + count_alts alts s'
  end.

(** The separators of a genotype and those of a multi-valued cell. *)
Definition genotype_seps : list ascii := ["/"; "|"]%char.

Definition cell_seps : list ascii := [";"; ","]%char.

(** Every row of a frame has one cell per column. *)
Definition rectangular (df : DataFrame) : Prop :=
  Forall (fun row => length row = length (columns df)) (rows df).

(** The labels and a row of a frame after [df[name] = ...]. *)
Definition cols_set (cols : list string) (name : string) : list string :=
  match index_of name cols with
  | Some _ => cols
  | None => cols ++ [name]
  end.

Definition row_set (cols : list string) (name : string) (row : list cell)
    (v : cell) : list cell :=
  match index_of name cols with
  | Some i => <[i := v]> row
  | None => row ++ [v]
  end.

(** A table of two variants, the first heterozygous, the second not. *)
Definition two_variants : DataFrame :=
  read_csv [mkVariantLine (CInt 1) (CInt 150) (CStr "A") (CStr "G") (CStr "A|G");
            mkVariantLine (CInt 1) (CInt 170) (CStr "C") (CStr "T") (CStr "T/T")].

(** The [bcftools view] command of the loop body for a line of the BED
    file, with the name that [norm_chr] gives when no prefix is detected. *)
Definition bed_view_cmd (args : Args) (row : BedRow) : string :=
  bcl_v (norm_chr (str (bed_chr row)) false)
        (str_of_Z (bed_start row)) (str_of_Z (bed_stop row)) (vcf_file args).

(** The names of the temporary file in the two modes. *)
Definition bed_temp (args : Args) (row : BedRow) : string :=
  outdir args +:+ "/" +:+ str (bed_chr row) +:+ "_prechrtable.txt".

Definition single_temp (args : Args) (chrom : string) : string :=
  outdir args +:+ "/" +:+ chrom +:+ "_prechrtable.txt".

(** A locus [c:s-e] whose three fields hold no further [:] or [-]. *)
Definition locus_fields (l c s e : string) : Prop :=
  l = c +:+ ":" +:+ s +:+ "-" +:+ e /\
  count_alts [":"%char] c = 0 /\
  count_alts [":"%char; "-"%char] s = 0 /\
  count_alts [":"%char; "-"%char] e = 0.

(** The environments used as concrete inputs below: a source file whose
    chromosome names have no prefix, holding one heterozygous variant at
    1:150; and one whose names have the prefix, holding one homozygous
    variant at chr1:150. *)
Definition env_unprefixed : Env :=
  {| bcftools_version := "1.9";
     float_of_version := Ok 2%float;
     popen_addr := fun _ => "0x7f3a5c1d2e80";
     vcf_last_chrom := fun _ => "1";
     read_bed := fun _ => [mkBedRow (CInt 1) 100 200 "geneA"];
     bcftools_lines := fun cmd =>
       if String.eqb cmd "bcftools view -r 1:100-200 in.vcf.gz"
       then [mkVariantLine (CInt 1) (CInt 150) (CStr "A") (CStr "G") (CStr "A|G")]
       else [] |}.

Definition env_prefixed : Env :=
  {| bcftools_version := "1.9";
     float_of_version := Ok 2%float;
     popen_addr := fun _ => "0x7f3a5c1d2e80";
     vcf_last_chrom := fun _ => "chr1";
     read_bed := fun _ => [mkBedRow (CInt 1) 100 200 "geneA";
                           mkBedRow (CInt 2) 100 200 "geneB"];
     bcftools_lines := fun cmd =>
       if String.eqb cmd "bcftools view -r chr1:100-200 in.vcf.gz"
       then [mkVariantLine (CStr "chr1") (CInt 150) (CStr "A") (CStr "G") (CStr "G|G")]
       else [] |}.

Definition args_single (l : string) : Args :=
  {| vcf_file := "in.vcf.gz"; locus := l; outdir := "out"; name := "sample";
     opt_f := false; opt_bed := false |}.

Definition args_bed : Args :=
  {| vcf_file := "in.vcf.gz"; locus := "genes.bed"; outdir := "out";
     name := "sample"; opt_f := false; opt_bed := true |}.

(** A table of one variant, homozygous. *)
Definition one_homozygous : DataFrame :=
  read_csv [mkVariantLine (CStr "chr1") (CInt 150) (CStr "A") (CStr "G") (CStr "G|G")].

(** The chromosome cell of a line does not contain "chr". *)
Definition no_chr (l : VariantLine) : Prop :=
  contains "chr" (str (v_chrom l)) = false.

(** The truth of a query expression on a row, read off the row's cells. *)
Fixpoint holds (cols : list string) (row : list cell) (e : expr) : bool :=
  match e with
  | QCol n =>
      match getitem cols row n with
      | Ok (CBool true) => true
      | _ => false
      end
  | QOr e1 e2 => holds cols row e1 || holds cols row e2
  end.

(** The number of rows of a table on which an expression is true. *)
Definition count_rows (df : DataFrame) (e : expr) : nat :=
  length (List.filter (fun row => holds (columns df) row e) (rows df)).

(** The columns the aggregator reads, and a table that defines each of them
    with a boolean in every row. *)
Definition targ_columns : list string :=
  "targ_all" :: map (fun cas => "targ_" +:+ cas) cas_list.

Definition bool_column (df : DataFrame) (n : string) : bool :=
  match index_of n (columns df) with
  | Some i =>
      forallb (fun row : list cell =>
                 match row !! i with
                 | Some (CBool _) => true
                 | _ => false
                 end) (rows df)
  | None => false
  end.

Definition is_targ_table (df : DataFrame) : bool :=
  forallb (bool_column df) targ_columns.

Fixpoint names (e : expr) : list string :=
  match e with
  | QCol n => [n]
  | QOr e1 e2 => names e1 ++ names e2
  end.

(** The label and the condition of each row the aggregator gives a gene. *)
Definition emitted : list (string * expr) :=
  [("all", QCol "targ_all");
   ("SpCas9", QCol "targ_SpCas9");
   ("SpCas9_VRER", QCol "targ_SpCas9_VRER");
   ("SpCas9_EQR", QCol "targ_SpCas9_EQR");
   ("SpCas9_VQR", QOr (QCol "targ_SpCas9_VQR_1") (QCol "targ_SpCas9_VQR_2"));
   ("StCas9", QCol "targ_StCas9");
   ("StCas9_2", QCol "targ_StCas9_2");
   ("SaCas9", QCol "targ_SaCas9");
   ("SaCas9_KKH", QCol "targ_SaCas9_KKH");
   ("nmCas9", QCol "targ_nmCas9");
   ("cjCas9", QCol "targ_cjCas9");
   ("cpf1", QCol "targ_cpf1")].

(** The rows of the summary for a gene with table [df], and for a gene
    whose table is looked up in [fs]. *)
Definition gene_block (gene : string) (df : DataFrame) : list SummaryRow :=
  map (fun le => mkSummaryRow (fst le) gene (frac (count_rows df (snd le))))
      emitted.

Definition table_path (argv2 gene : string) : string :=
  argv2 +:+ gene +:+ ".h5".

Definition found_rows (fs : gmap string DataFrame) (argv2 gene : string)
  : list SummaryRow :=
  match fs !! table_path argv2 gene with
  | Some df => gene_block gene df
  | None => []
  end.

Definition missing (fs : gmap string DataFrame) (argv2 gene : string) : bool :=
  match fs !! table_path argv2 gene with
  | Some _ => false
  | None => true
  end.

(** The three global lists hold the columns of [rs]. *)
Definition repr (s : State) (rs : list SummaryRow) : Prop :=
  cases s = map row_cas rs /\ genes s = map row_gene rs /\
  perc_ppl_targ s = map row_perc rs.

(** Every table found for a gene of [l] is a targetability table. *)
Definition tables_ok (fs : gmap string DataFrame) (argv2 : string)
    (l : list string) : Prop :=
  forall gene df, In gene l -> fs !! table_path argv2 gene = Some df ->
                  is_targ_table df = true.

(** A small cohort used as a concrete input: one gene with a table of
    three members, a second gene without a table. *)
Definition cohort_table : DataFrame :=
  {| columns := targ_columns;
     rows :=
       [map CBool [true; true; false; false; true; false; false;
                   false; false; false; false; false; false];
        map CBool [true; false; false; false; false; true; false;
                   false; false; false; false; false; false];
        map CBool [false; false; false; false; false; false; false;
                   false; false; false; false; false; false]] |}.

Definition cohort_fs : gmap string DataFrame :=
  {[ "tables/BRCA1.h5" := cohort_table ]}.

(** ** Further vocabulary: runs of the extractor *)

(** What a single-locus run has done when it comes to look at its table:
    the probe, the three-stage pipe on the region ["chr" + c]:[s]-[e] and
    the temporary file. *)
Definition single_events (env : Env) (args : Args) (c s e : string)
  : list event :=
  [Print "Running single locus";
   Shell (probe_cmd (vcf_file args));
   ChildStdout (vcf_last_chrom env (vcf_file args));
   Shell (bcl_v ("chr" +:+ c) s e (vcf_file args));
   Shell "bcftools norm -m -";
   Shell "bcftools query -f '%CHROM\t%POS\t%REF\t%ALT[\t%TGT]\n'";
   WriteFile (single_temp args ("chr" +:+ c))].

(** The same for the loop body on a line of the BED file. *)
Definition bed_events (env : Env) (args : Args) (row : BedRow) : list event :=
  [Shell (probe_cmd (vcf_file args));
   ChildStdout (vcf_last_chrom env (vcf_file args));
   Shell (bed_view_cmd args row);
   Shell "bcftools norm -m -";
   Shell "bcftools query -f '%CHROM\t%POS\t%REF\t%ALT[\t%TGT]\n'";
   WriteFile (bed_temp args row)].

(** What a run does before it looks at its locus, with a bcftools that
    passes the version test. The trace starts at line 83: the echo of the
    argument dictionary on line 81 is not an event of [main]. *)
Definition start_events (env : Env) (args : Args) : list event :=
  [Makedirs (outdir args);
   Shell "bcftools -v | head -1 | cut -d ' ' -f2";
   Print ("bcftools version " +:+ bcftools_version env +:+ " running")].

(** The entries given to [hdf_out.put] in a trace, in order. *)
Fixpoint puts_of (t : list event) : list (string * DataFrame) :=
  match t with
  | [] => []
  | Put key value :: t' => (key, value) :: puts_of t'
  | _ :: t' => puts_of t'
  end.




(** For the intervals of [l], the pipe answers a region query with lines
    that carry the name of the region's chromosome, as queried. *)
Definition answers_with_queried_name (env : Env) (args : Args)
    (l : list BedRow) : Prop :=
  Forall (fun row =>
            Forall (fun line => v_chrom line = CStr ("chr" +:+ str (bed_chr row)))
                   (bcftools_lines env (bed_view_cmd args row))) l.

(** ** Further vocabulary: tables of variants *)




(** An environment whose bcftools is older than required. *)
Definition env_old_bcftools : Env :=
  {| bcftools_version := "1.0";
     float_of_version := Ok 1%float;
     popen_addr := fun _ => "0x7f3a5c1d2e80";
     vcf_last_chrom := fun _ => "chr1";
     read_bed := fun _ => [];
     bcftools_lines := fun _ => [] |}.

(** The cells of a line, in the order of the columns of [read_csv]. *)
Definition line_row (l : VariantLine) : list cell :=
  [v_chrom l; v_pos l; v_ref l; v_alt l; v_genotype l].


(** ** Further vocabulary: runs of the aggregator *)

(** A step of the aggregator that ends in an exception other than the
    [FileNotFoundError] that the loop catches; and a step that ends normally
    or in such an exception. *)
Definition fatal (r : State * result unit) : Prop :=
  exists x, snd r = Raise x /\ x <> FileNotFoundError.

Definition fine (r : State * result unit) : Prop :=
  snd r = Ok tt \/ fatal r.

(** The table of a gene is found. *)
Definition found (fs : gmap string DataFrame) (argv2 gene : string) : bool :=
  negb (missing fs argv2 gene).

(** A directory with one table that has only the combined column. *)
Definition short_fs : gmap string DataFrame :=
  {[ "tables/BRCA1.h5" :=
       {| columns := ["targ_all"]; rows := [[CBool true]; [CBool false]] |} ]}.

(** The three lists that become the columns of the summary have one
    length. *)
Definition aligned (s : State) : Prop :=
  length (cases s) = length (genes s) /\
  length (genes s) = length (perc_ppl_targ s).


(** * Properties *)

(** ** Facts about the string operations *)

Lemma prefix_single (a c : ascii) (s : string) :
  String.prefix (String a EmptyString) (String c s) = Ascii.eqb c a.
Proof.
  simpl. destruct (ascii_dec a c) as [->|Hne].
  - rewrite Ascii.eqb_refl. now destruct s.
  - symmetry. apply Ascii.eqb_neq. congruence.
Qed.

Lemma contains_single (a : ascii) (s : string) :
  contains (String a EmptyString) s = negb (count_alts [a] s =? 0)%nat.
Proof.
  induction s as [|c s IH]; [reflexivity|].
  change (contains (String a EmptyString) (String c s))
    with (String.prefix (String a EmptyString) (String c s)
          || contains (String a EmptyString) s).
  rewrite prefix_single, IH. simpl. unfold is_alt. simpl.
  rewrite orb_false_r. now destruct (Ascii.eqb c a).
Qed.

Lemma contains_absent_prefix (sub s : string) :
  contains sub s = false -> String.prefix sub s = false.
Proof.
  destruct s; simpl; intros H; apply orb_false_iff in H; tauto.
Qed.

Lemma replace_from_absent (old new s : string) :
  contains old s = false -> replace_from old new 0 s = s.
Proof.
  induction s as [|c s IH]; [reflexivity|].
  intros H. pose proof (contains_absent_prefix _ _ H) as Hp.
  change (contains old (String c s))
    with (String.prefix old (String c s) || contains old s) in H.
  apply orb_false_iff in H as [_ H].
  cbn [replace_from]. rewrite Hp. f_equal. auto.
Qed.

Lemma replace_absent (s old new : string) :
  contains old s = false -> replace s old new = s.
Proof. apply replace_from_absent. Qed.

Lemma re_split_no_alt (alts : list ascii) (s : string) :
  count_alts alts s = 0 -> re_split alts s = [s].
Proof.
  induction s as [|c s IH]; [reflexivity|].
  simpl. destruct (is_alt alts c); [discriminate|].
  intros H. now rewrite IH.
Qed.

Lemma re_split_app (alts : list ascii) (l r : string) (c : ascii) :
  count_alts alts l = 0 -> is_alt alts c = true ->
  re_split alts (l +:+ String c r) = l :: re_split alts r.
Proof.
  intros Hl Hc. induction l as [|a l IH]; simpl.
  - now rewrite Hc.
  - simpl in Hl. destruct (is_alt alts a); [discriminate|].
    now rewrite IH.
Qed.

Lemma count_alts_one (alts : list ascii) (s : string) :
  count_alts alts s = 1 ->
  exists l c r, s = l +:+ String c r /\ is_alt alts c = true /\
                count_alts alts l = 0 /\ count_alts alts r = 0.
Proof.
  induction s as [|a s IH]; [discriminate|].
  simpl. destruct (is_alt alts a) eqn:Ha; intros H.
  - exists EmptyString, a, s. repeat split; auto; lia.
  - destruct (IH H) as (l & c & r & -> & Hc & Hl & Hr).
    exists (String a l), c, r. simpl. rewrite Ha. auto.
Qed.

Lemma digits_no_alt (alts : list ascii) (d : Decimal.uint) :
  (forall c, In c ["0"; "1"; "2"; "3"; "4"; "5"; "6"; "7"; "8"; "9"; "-"]%char ->
             is_alt alts c = false) ->
  count_alts alts (NilEmpty.string_of_uint d) = 0.
Proof.
  intros H. induction d; simpl; try reflexivity;
    (rewrite H; [assumption | simpl; tauto]).
Qed.

Lemma str_of_Z_no_alt (alts : list ascii) (z : Z) :
  (forall c, In c ["0"; "1"; "2"; "3"; "4"; "5"; "6"; "7"; "8"; "9"; "-"]%char ->
             is_alt alts c = false) ->
  count_alts alts (str_of_Z z) = 0.
Proof.
  intros H. unfold str_of_Z, NilZero.string_of_int, NilZero.string_of_uint.
  assert (H0 : is_alt alts "0" = false) by (apply H; simpl; tauto).
  assert (Hm : is_alt alts "-" = false) by (apply H; simpl; tauto).
  destruct (Z.to_int z) as [d|d]; simpl; rewrite ?Hm;
    (destruct d; [simpl; now rewrite H0 | rewrite digits_no_alt; auto ..]).
Qed.

(** ** Chromosome names *)

Lemma norm_chr_strip_prefixed (t : string) :
  norm_chr ("chr" +:+ t) true = norm_chr t true.
Proof. destruct t; reflexivity. Qed.

Lemma norm_chr_strip_absent (t : string) :
  contains "chr" t = false -> norm_chr t true = t.
Proof. intros H. unfold norm_chr. now apply replace_absent. Qed.

(** C3 (as the code has it): the two examples of the specification hold;
    for a name [t] free of "chr", prefixing then stripping gives [t] back,
    stripping then prefixing gives "chr" + [t] back, and stripping is
    idempotent on both [t] and "chr" + [t]. *)
Theorem norm_chr_round_trip (t : string) :
  contains "chr" t = false ->
  norm_chr "chr1" true = "1" /\
  norm_chr "1" false = "chr1" /\
  norm_chr (norm_chr t false) true = t /\
  norm_chr (norm_chr ("chr" +:+ t) true) false = "chr" +:+ t /\
  norm_chr (norm_chr t true) true = norm_chr t true /\
  norm_chr (norm_chr ("chr" +:+ t) true) true = norm_chr ("chr" +:+ t) true.
Proof.
  intros H.
  assert (Hs : norm_chr t true = t) by now apply norm_chr_strip_absent.
  repeat split.
  - change (norm_chr t false) with ("chr" +:+ t).
    now rewrite norm_chr_strip_prefixed.
  - rewrite norm_chr_strip_prefixed, Hs. reflexivity.
  - now rewrite Hs.
  - now rewrite norm_chr_strip_prefixed, !Hs.
Qed.

Lemma norm_chr_round_trip_witness :
  norm_chr (norm_chr "X" false) true = "X" /\
  norm_chr (norm_chr "chrX" true) false = "chrX".
Proof.
  destruct (norm_chr_round_trip "X" eq_refl) as (_ & _ & H1 & H2 & _).
  exact (conj H1 H2).
Defined.

(** C3 (as stated) fails: prefixing twice is not prefixing once, stripping
    then prefixing does not give back a name that had no prefix, prefixing
    then stripping does not give back a name that had one, and stripping
    twice is not stripping once on a name such as "cchrhr1". *)
Lemma norm_chr_not_reversible_nor_idempotent :
  norm_chr (norm_chr "1" false) false <> norm_chr "1" false /\
  norm_chr (norm_chr "1" true) false <> "1" /\
  norm_chr (norm_chr "chr1" false) true <> "chr1" /\
  norm_chr (norm_chr "cchrhr1" true) true <> norm_chr "cchrhr1" true.
Proof. repeat split; discriminate. Qed.

Example norm_chr_prefix_twice :
  norm_chr (norm_chr "1" false) false = "chrchr1".
Proof. reflexivity. Qed.

Example norm_chr_strip_then_prefix : norm_chr (norm_chr "1" true) false = "chr1".
Proof. reflexivity. Qed.

Example norm_chr_prefix_then_strip : norm_chr (norm_chr "chr1" false) true = "1".
Proof. reflexivity. Qed.

Example norm_chr_strip_twice :
  norm_chr "cchrhr1" true = "chr1" /\ norm_chr (norm_chr "cchrhr1" true) true = "1".
Proof. split; reflexivity. Qed.

(** ** Heterozygosity *)

(** C4: a genotype with exactly one separator splits into the part left of
    it and the part right of it, and [het] answers whether they differ. *)
Theorem het_one_separator (g : string) :
  count_alts genotype_seps g = 1 ->
  exists l c r,
    g = l +:+ String c r /\ is_alt genotype_seps c = true /\
    count_alts genotype_seps l = 0 /\ count_alts genotype_seps r = 0 /\
    het (CStr g) = Ok (negb (String.eqb l r)) /\
    (het (CStr g) = Ok true <-> l <> r).
Proof.
  intros H. destruct (count_alts_one _ _ H) as (l & c & r & -> & Hc & Hl & Hr).
  exists l, c, r. repeat split; auto.
  - unfold het. fold genotype_seps.
    rewrite re_split_app, re_split_no_alt by assumption. reflexivity.
  - unfold het. fold genotype_seps.
    rewrite re_split_app, re_split_no_alt by assumption.
    intros E Heq. apply String.eqb_eq in Heq. rewrite Heq in E. discriminate.
  - unfold het. fold genotype_seps.
    rewrite re_split_app, re_split_no_alt by assumption.
    intros Hne. destruct (String.eqb l r) eqn:E; [|reflexivity].
    apply String.eqb_eq in E. contradiction.
Qed.

Lemma het_one_separator_witness :
  exists l c r,
    "A/T" = l +:+ String c r /\ is_alt genotype_seps c = true /\
    count_alts genotype_seps l = 0 /\ count_alts genotype_seps r = 0 /\
    het (CStr "A/T") = Ok (negb (String.eqb l r)) /\
    (het (CStr "A/T") = Ok true <-> l <> r).
Proof. apply (het_one_separator "A/T"). reflexivity. Defined.

Example het_examples :
  het (CStr "A/T") = Ok true /\ het (CStr "G/G") = Ok false /\
  het (CStr "C|C") = Ok false /\ het (CStr "0|1") = Ok true.
Proof. repeat split. Qed.

(** Without exactly one separator the unpacking of line 66 fails. *)
Example het_no_separator : het (CStr "A") = Raise ValueError.
Proof. reflexivity. Qed.

Example het_two_separators : het (CStr "A/T/G") = Raise ValueError.
Proof. reflexivity. Qed.

(** ** Facts about the error monad *)

Lemma mapM_Forall2 {A B} (f : A -> result B) (l : list A) (l' : list B) :
  mapM f l = Ok l' -> Forall2 (fun x y => f x = Ok y) l l'.
Proof.
  revert l'. induction l as [|x l IH]; simpl; intros l' H.
  - injection H as <-. constructor.
  - destruct (f x) as [y|] eqn:Hx; [|discriminate]. simpl in H.
    destruct (mapM f l) as [ys|]; [|discriminate]. simpl in H.
    injection H as <-. constructor; auto.
Qed.

Lemma mapM_total {A B} (f : A -> result B) (l : list A) :
  (forall x, In x l -> exists y, f x = Ok y) -> exists l', mapM f l = Ok l'.
Proof.
  induction l as [|x l IH]; simpl; intros H; [eauto|].
  destruct (H x) as [y Hy]; [auto|].
  destruct IH as [ys Hys]; [auto|].
  rewrite Hy, Hys. simpl. eauto.
Qed.

Lemma mapM_ext_in {A B} (f g : A -> result B) (l : list A) :
  (forall x, In x l -> f x = g x) -> mapM f l = mapM g l.
Proof.
  induction l as [|x l IH]; simpl; intros H; [reflexivity|].
  rewrite H, IH by auto. reflexivity.
Qed.

Lemma filterM_spec {A} (f : A -> result bool) (l l' : list A) :
  filterM f l = Ok l' ->
  length l' <= length l /\ Forall (fun x => In x l /\ f x = Ok true) l'.
Proof.
  revert l'. induction l as [|x l IH]; simpl; intros l' H.
  - injection H as <-. split; [simpl; lia | constructor].
  - destruct (f x) as [b|] eqn:Hx; [|discriminate]. simpl in H.
    destruct (filterM f l) as [ys|]; [|discriminate]. simpl in H.
    injection H as <-. destruct (IH ys eq_refl) as [Hlen Hall].
    assert (Hall' : Forall (fun y => In y (x :: l) /\ f y = Ok true) ys).
    { eapply Forall_impl; [exact Hall|]. simpl. intros y [? ?]. auto. }
    destruct b; simpl; split; try lia; auto.
Qed.

(** ** Multiallelic cleanup *)

Lemma count_alts_cons (a : ascii) (alts : list ascii) (s : string) :
  count_alts (a :: alts) s = 0 <->
  count_alts [a] s = 0 /\ count_alts alts s = 0.
Proof.
  induction s as [|c s IH]; simpl; [tauto|].
  unfold is_alt in *. simpl. rewrite orb_false_r.
  destruct (Ascii.eqb c a), (existsb (Ascii.eqb c) alts); simpl; try tauto;
    intuition discriminate.
Qed.

Lemma splitters_test (s : string) :
  existsb (fun splitter => contains splitter s) splitters
  = negb (count_alts cell_seps s =? 0)%nat.
Proof.
  unfold splitters. simpl. rewrite !contains_single, orb_false_r.
  pose proof (count_alts_cons ";" [","%char] s) as H. fold cell_seps in H.
  destruct (Nat.eqb_spec (count_alts cell_seps s) 0) as [E|E].
  - apply H in E as [-> ->]. reflexivity.
  - destruct (Nat.eqb_spec (count_alts [","%char] s) 0) as [E1|E1],
             (Nat.eqb_spec (count_alts [";"%char] s) 0) as [E2|E2];
      simpl; try reflexivity.
    exfalso. apply E, H. auto.
Qed.

Lemma count_alts_app_sep (alts : list ascii) (l r : string) (c : ascii) :
  is_alt alts c = true -> count_alts alts (l +:+ String c r) <> 0.
Proof.
  intros Hc. induction l as [|a l IH]; simpl.
  - rewrite Hc. discriminate.
  - lia.
Qed.

Lemma re_split_nonempty (alts : list ascii) (s : string) :
  exists w ws, re_split alts s = w :: ws.
Proof.
  induction s as [|c s (w & ws & IH)]; simpl; [eauto|].
  destruct (is_alt alts c); [eauto|]. rewrite IH. eauto.
Qed.

Lemma plain_chars_not_cell_seps (c : ascii) :
  In c ["0"; "1"; "2"; "3"; "4"; "5"; "6"; "7"; "8"; "9"; "-"]%char ->
  is_alt cell_seps c = false.
Proof.
  simpl. intros H. repeat (destruct H as [<-|H]; [reflexivity|]). contradiction.
Qed.

Lemma fix_multiallelics_total (c : cell) : exists c', fix_multiallelics c = Ok c'.
Proof.
  unfold fix_multiallelics. rewrite splitters_test.
  destruct (count_alts cell_seps (str c) =? 0)%nat eqn:E; simpl; [eauto|].
  destruct c as [z|s|b]; simpl str in E.
  - rewrite str_of_Z_no_alt in E by apply plain_chars_not_cell_seps. discriminate.
  - destruct (re_split_nonempty [";"%char; ","%char] s) as (w & ws & ->).
    simpl. eauto.
  - destruct b; discriminate.
Qed.

(** C5: a string cell with a separator is cut before its first separator; a
    cell without one, and a cell that is not a string, is returned
    unchanged; and [applymap], which [main] uses in both modes and with or
    without [-f], does this to every cell of every row, keeping the columns. *)
Theorem fix_multiallelics_spec :
  (forall l c r,
      count_alts cell_seps l = 0 -> is_alt cell_seps c = true ->
      fix_multiallelics (CStr (l +:+ String c r)) = Ok (CStr l)) /\
  (forall s, count_alts cell_seps s = 0 ->
             fix_multiallelics (CStr s) = Ok (CStr s)) /\
  (forall z, fix_multiallelics (CInt z) = Ok (CInt z)) /\
  (forall b, fix_multiallelics (CBool b) = Ok (CBool b)) /\
  (forall vars, exists cleaned,
      applymap fix_multiallelics vars = Ok cleaned /\
      columns cleaned = columns vars /\
      Forall2 (Forall2 (fun c c' => fix_multiallelics c = Ok c'))
              (rows vars) (rows cleaned) /\
      vars_fixed true vars = Ok cleaned /\
      vars_fixed false vars = filter_hets cleaned).
Proof.
  repeat split.
  - intros l c r Hl Hc. unfold fix_multiallelics. rewrite splitters_test.
    simpl str. destruct (Nat.eqb_spec (count_alts cell_seps (l +:+ String c r)) 0) as [E|_].
    + now apply count_alts_app_sep in E.
    + simpl. fold cell_seps. now rewrite re_split_app.
  - intros s Hs. unfold fix_multiallelics. rewrite splitters_test.
    simpl str. now rewrite Hs.
  - intros z. unfold fix_multiallelics. rewrite splitters_test. simpl str.
    now rewrite str_of_Z_no_alt by apply plain_chars_not_cell_seps.
  - intros [|]; reflexivity.
  - intros vars.
    destruct (mapM_total (mapM fix_multiallelics) (rows vars)) as [rs Hrs].
    { intros row _. apply mapM_total. intros c _. apply fix_multiallelics_total. }
    exists {| columns := columns vars; rows := rs |}.
    unfold vars_fixed, applymap. rewrite Hrs. simpl. repeat split.
    apply mapM_Forall2 in Hrs.
    eapply Forall2_impl; [exact Hrs|]. intros row row' H.
    now apply mapM_Forall2 in H.
Qed.

Lemma fix_multiallelics_spec_witness :
  fix_multiallelics (CStr "A,T") = Ok (CStr "A") /\
  fix_multiallelics (CStr "0|1") = Ok (CStr "0|1").
Proof.
  destruct fix_multiallelics_spec as (Hcut & Hkeep & _).
  split.
  - apply (Hcut "A" ","%char "T"); reflexivity.
  - apply (Hkeep "0|1"). reflexivity.
Defined.

Example fix_multiallelics_examples :
  fix_multiallelics (CStr "A,T") = Ok (CStr "A") /\
  fix_multiallelics (CStr "A;T,G") = Ok (CStr "A") /\
  fix_multiallelics (CStr "0|1,0|2") = Ok (CStr "0|1") /\
  fix_multiallelics (CStr "ACGT") = Ok (CStr "ACGT") /\
  fix_multiallelics (CInt 1234) = Ok (CInt 1234).
Proof. repeat split. Qed.

(** ** Frames: reading and writing columns *)

Lemma index_of_Some (n : string) (cols : list string) (i : nat) :
  index_of n cols = Some i -> cols !! i = Some n /\ i < length cols.
Proof.
  revert i. induction cols as [|c cols IH]; simpl; intros i H; [discriminate|].
  destruct (String.eqb c n) eqn:E.
  - injection H as <-. apply String.eqb_eq in E as ->. split; [reflexivity|lia].
  - destruct (index_of n cols) as [j|]; [|discriminate].
    injection H as <-. destruct (IH j eq_refl). split; [assumption|lia].
Qed.

Lemma index_of_app_Some (n : string) (cols l : list string) (i : nat) :
  index_of n cols = Some i -> index_of n (cols ++ l) = Some i.
Proof.
  revert i. induction cols as [|c cols IH]; simpl; intros i H; [discriminate|].
  destruct (String.eqb c n); [assumption|].
  destruct (index_of n cols) as [j|]; [|discriminate].
  now rewrite (IH j eq_refl).
Qed.

Lemma index_of_app_None (n m : string) (cols : list string) :
  index_of n cols = None ->
  index_of n (cols ++ [m])
  = if String.eqb m n then Some (length cols) else None.
Proof.
  induction cols as [|c cols IH]; simpl; intros H.
  - now destruct (String.eqb m n).
  - destruct (String.eqb c n); [discriminate|].
    destruct (index_of n cols); [discriminate|].
    rewrite IH by reflexivity. now destruct (String.eqb m n).
Qed.

Lemma setitem_rows (df : DataFrame) (name : string) (vals : list cell) :
  setitem df name vals
  = {| columns := cols_set (columns df) name;
       rows := zip_with (row_set (columns df) name) (rows df) vals |}.
Proof.
  unfold setitem, cols_set, row_set.
  now destruct (index_of name (columns df)).
Qed.

Lemma getitem_row_set_same cols name (row : list cell) v :
  length row = length cols ->
  getitem (cols_set cols name) (row_set cols name row v) name = Ok v.
Proof.
  intros Hlen. unfold getitem, cols_set, row_set.
  destruct (index_of name cols) as [i|] eqn:E.
  - rewrite E. destruct (index_of_Some _ _ _ E) as [_ Hi].
    rewrite list_lookup_insert_eq by lia. reflexivity.
  - rewrite index_of_app_None, String.eqb_refl by assumption.
    rewrite <- Hlen, list_lookup_middle by reflexivity. reflexivity.
Qed.

Lemma getitem_row_set_other cols name (row : list cell) v n :
  length row = length cols -> n <> name ->
  getitem (cols_set cols name) (row_set cols name row v) n
  = getitem cols row n.
Proof.
  intros Hlen Hne. unfold getitem, cols_set, row_set.
  destruct (index_of name cols) as [i|] eqn:E.
  - destruct (index_of n cols) as [j|] eqn:En; [|reflexivity].
    destruct (index_of_Some _ _ _ E) as [Hi _].
    destruct (index_of_Some _ _ _ En) as [Hj _].
    rewrite list_lookup_insert_ne; [reflexivity|].
    intros ->. congruence.
  - destruct (index_of n cols) as [j|] eqn:En.
    + rewrite (index_of_app_Some _ _ _ _ En).
      destruct (index_of_Some _ _ _ En) as [_ Hj].
      rewrite lookup_app_l by lia. reflexivity.
    + rewrite index_of_app_None by assumption.
      destruct (String.eqb name n) eqn:Eq; [|reflexivity].
      apply String.eqb_eq in Eq. congruence.
Qed.

Lemma in_zip_with_Forall2 {A B C} (R : A -> B -> Prop) (f : A -> B -> C)
    (l : list A) (l' : list B) (x : C) :
  Forall2 R l l' -> In x (zip_with f l l') ->
  exists a b, In a l /\ R a b /\ x = f a b.
Proof.
  induction 1 as [|a b l l' Hab _ IH]; simpl; [contradiction|].
  intros [<-|H].
  - exists a, b. auto.
  - destruct (IH H) as (a' & b' & ? & ? & ?). exists a', b'. auto.
Qed.

Lemma length_zip_with_le {A B C} (f : A -> B -> C) (l : list A) (l' : list B) :
  length (zip_with f l l') <= length l.
Proof.
  revert l'. induction l as [|a l IH]; intros [|b l']; simpl; try lia.
  specialize (IH l'). lia.
Qed.

Lemma Forall2_in_r {A B} (R : A -> B -> Prop) (l : list A) (l' : list B) (y : B) :
  Forall2 R l l' -> In y l' -> exists x, In x l /\ R x y.
Proof.
  induction 1 as [|a b l l' Hab _ IH]; simpl; [contradiction|].
  intros [<-|H]; [eauto|]. destruct (IH H) as (x & ? & ?). eauto.
Qed.

(** ** Heterozygous-only filtering *)

Ltac bind_step H := cbv beta iota delta [bind] in H.

Lemma gens_columns_not_het (n : string) : In n gens_columns -> n <> "het".
Proof.
  simpl. intros H. repeat (destruct H as [<-|H]; [discriminate|]). contradiction.
Qed.

(** C6: on a frame with one cell per column, [filter_hets] returns no more
    rows than it was given; the result has exactly the columns chrom, pos,
    ref, alt, genotype; and every row of the result is the projection of a
    row of the input whose genotype passes [het]. *)
Theorem filter_hets_spec (gens_df out : DataFrame) :
  rectangular gens_df ->
  filter_hets gens_df = Ok out ->
  shape0 out <= shape0 gens_df /\
  columns out = ["chrom"; "pos"; "ref"; "alt"; "genotype"] /\
  Forall (fun row' =>
            (exists g, getitem (columns out) row' "genotype" = Ok g /\
                       het g = Ok true) /\
            (exists row, In row (rows gens_df) /\
                         mapM (getitem (columns gens_df) row) gens_columns
                         = Ok row'))
         (rows out).
Proof.
  intros Hrect H. unfold filter_hets, apply_rows in H.
  destruct (mapM _ (rows gens_df)) as [hets|] eqn:Hhets; [|discriminate].
  bind_step H. rewrite setitem_rows in H.
  set (cols1 := cols_set (columns gens_df) "het") in *.
  set (rows1 := zip_with (row_set (columns gens_df) "het") (rows gens_df) hets) in *.
  unfold query in H. cbn [columns rows] in H.
  destruct (resolves cols1 (QCol "het")); [|discriminate].
  destruct (filterM _ rows1) as [kept|] eqn:Hkept; [|discriminate].
  bind_step H. unfold select in H. cbn [columns rows] in H.
  destruct (mapM _ gens_columns) as [idx|]; [|discriminate]. bind_step H.
  destruct (mapM _ kept) as [rs|] eqn:Hrs; [|discriminate]. bind_step H.
  injection H as <-. unfold shape0. cbn [columns rows].
  apply mapM_Forall2 in Hhets, Hrs.
  apply filterM_spec in Hkept as [Hlen Hkept].
  unfold rectangular in Hrect. rewrite List.Forall_forall in Hrect, Hkept.
  split; [|split; [reflexivity|]].
  - rewrite <- (Forall2_length _ _ _ Hrs).
    pose proof (length_zip_with_le (row_set (columns gens_df) "het")
                                   (rows gens_df) hets).
    fold rows1 in H. lia.
  - apply List.Forall_forall. intros row' Hin.
    destruct (Forall2_in_r _ _ _ _ Hrs Hin) as (r1 & Hr1 & Hproj).
    destruct (Hkept _ Hr1) as [Hin1 Hq].
    destruct (in_zip_with_Forall2 _ _ _ _ _ Hhets Hin1)
      as (row & h & Hrow & Hh & ->).
    pose proof (Hrect _ Hrow) as Hw.
    assert (Hsame : mapM (getitem cols1 (row_set (columns gens_df) "het" row h))
                         gens_columns
                    = mapM (getitem (columns gens_df) row) gens_columns).
    { apply mapM_ext_in. intros n Hn.
      apply getitem_row_set_other; [assumption|].
      now apply gens_columns_not_het. }
    rewrite Hsame in Hproj. split; [|eauto].
    destruct (getitem (columns gens_df) row "genotype") as [g|] eqn:Hg;
      [|discriminate].
    simpl in Hh. destruct (het g) as [b|] eqn:Hb; [|discriminate].
    simpl in Hh. injection Hh as <-.
    simpl in Hq. unfold cols1 in Hq.
    rewrite getitem_row_set_same in Hq by assumption. simpl in Hq.
    injection Hq as ->.
    exists g. split; [|assumption].
    unfold gens_columns in Hproj. simpl in Hproj. rewrite Hg in Hproj.
    destruct (getitem (columns gens_df) row "chrom"); [|discriminate].
    destruct (getitem (columns gens_df) row "pos"); [|discriminate].
    destruct (getitem (columns gens_df) row "ref"); [|discriminate].
    destruct (getitem (columns gens_df) row "alt"); [|discriminate].
    simpl in Hproj. injection Hproj as <-. reflexivity.
Qed.

Lemma filter_hets_spec_witness :
  shape0 (mkDataFrame gens_columns
            [[CInt 1; CInt 150; CStr "A"; CStr "G"; CStr "A|G"]]) <= shape0 two_variants.
Proof.
  refine (proj1 (filter_hets_spec two_variants _ _ _)).
  - repeat constructor.
  - reflexivity.
Defined.

(** The frames [main] gives to [filter_hets] have one cell per column. *)
Lemma rectangular_read_csv (lines : list VariantLine) :
  rectangular (read_csv lines).
Proof.
  unfold rectangular, read_csv. cbn [columns rows].
  induction lines; constructor; auto.
Qed.

Lemma rectangular_applymap (f : cell -> result cell) (df df' : DataFrame) :
  rectangular df -> applymap f df = Ok df' -> rectangular df'.
Proof.
  unfold rectangular, applymap. intros Hrect H.
  destruct (mapM (mapM f) (rows df)) as [rs|] eqn:Hrs; [|discriminate].
  injection H as <-. cbn [columns rows].
  apply mapM_Forall2 in Hrs. induction Hrs as [|row row' l l' Hrow _ IH].
  - constructor.
  - apply Forall_cons_1 in Hrect as [Hlen Hrect]. constructor; [|auto].
    apply mapM_Forall2, Forall2_length in Hrow. congruence.
Qed.

(** ** The extractor's runs *)

Lemma popen_text_not_chr (addr : string) :
  startswith (str_Popen addr) "chr" = false.
Proof. reflexivity. Qed.

Lemma count_alts_app (alts : list ascii) (a b : string) :
  count_alts alts (a +:+ b) = count_alts alts a + count_alts alts b.
Proof. induction a as [|c a IH]; simpl; [reflexivity|]. rewrite IH. lia. Qed.

Section Runs.

Variable env : Env.
Variable args : Args.

Lemma bed_body_eq (row : BedRow) :
  bed_body env args row =
  let '(t, r) := bed_store args row (bed_temp args row)
                   (read_csv (bcftools_lines env (bed_view_cmd args row))) in
  ([Shell (probe_cmd (vcf_file args));
    ChildStdout (vcf_last_chrom env (vcf_file args));
    Shell (bed_view_cmd args row);
    Shell "bcftools norm -m -";
    Shell "bcftools query -f '%CHROM\t%POS\t%REF\t%ALT[\t%TGT]\n'";
    WriteFile (bed_temp args row)] ++ t, r).
Proof.
  unfold bed_body, probe, pipeline, bindM, emit, ret.
  rewrite popen_text_not_chr. fold (bed_view_cmd args row) (bed_temp args row).
  destruct (bed_store _ _ _ _) as [t r]. reflexivity.
Qed.

Lemma locus_fields_split (c s e : string) :
  locus_fields (locus args) c s e ->
  split (locus args) ":" = [c; s +:+ "-" +:+ e] /\
  split (s +:+ "-" +:+ e) "-" = [s; e].
Proof.
  intros (-> & Hc & Hs & He).
  apply count_alts_cons in Hs as [Hs1 Hs2], He as [He1 He2].
  unfold split. split.
  - change (c +:+ ":" +:+ s +:+ "-" +:+ e)
      with (c +:+ String ":" (s +:+ "-" +:+ e)).
    rewrite re_split_app by (assumption || reflexivity).
    rewrite re_split_no_alt; [reflexivity|].
    rewrite count_alts_app, Hs1. simpl. assumption.
  - change (s +:+ "-" +:+ e) with (s +:+ String "-" e).
    rewrite re_split_app by (assumption || reflexivity).
    now rewrite re_split_no_alt.
Qed.

Lemma single_locus_eq (c s e : string) :
  locus_fields (locus args) c s e ->
  single_locus env args =
  let chrom := "chr" +:+ c in
  let cmd := bcl_v chrom s e (vcf_file args) in
  let '(t, r) := single_store args chrom (single_temp args chrom)
                   (read_csv (bcftools_lines env cmd)) in
  ([Print "Running single locus";
    Shell (probe_cmd (vcf_file args));
    ChildStdout (vcf_last_chrom env (vcf_file args));
    Shell cmd;
    Shell "bcftools norm -m -";
    Shell "bcftools query -f '%CHROM\t%POS\t%REF\t%ALT[\t%TGT]\n'";
    WriteFile (single_temp args chrom)] ++ t, r).
Proof.
  intros H. destruct (locus_fields_split _ _ _ H) as [H1 H2].
  unfold single_locus, probe, pipeline, bindM, emit, ret, lift.
  rewrite H1. cbn [index lookup list_lookup]. rewrite H2.
  cbn [index lookup list_lookup]. rewrite popen_text_not_chr.
  change (norm_chr c false) with ("chr" +:+ c).
  fold (single_temp args ("chr" +:+ c)).
  cbv zeta. destruct (single_store _ _ _ _) as [t r]. reflexivity.
Qed.

End Runs.

(** ** Prefix detection *)

(** C1 (what the code does): the text tested for the prefix is that of the
    process handle, never a line of the source file, so no prefix is ever
    detected and the name given to [bcftools view] is always "chr" followed
    by the requested name, in both modes, whatever the source file holds. *)
Theorem region_name_ignores_source (env : Env) (args : Args) :
  (forall addr, startswith (str_Popen addr) "chr" = false) /\
  (forall row, exists t r,
      bed_body env args row =
      ([Shell (probe_cmd (vcf_file args));
        ChildStdout (vcf_last_chrom env (vcf_file args));
        Shell (bcl_v ("chr" +:+ str (bed_chr row)) (str_of_Z (bed_start row))
                     (str_of_Z (bed_stop row)) (vcf_file args))] ++ t, r)) /\
  (forall c s e, locus_fields (locus args) c s e ->
      exists t r,
        single_locus env args =
        ([Print "Running single locus";
          Shell (probe_cmd (vcf_file args));
          ChildStdout (vcf_last_chrom env (vcf_file args));
          Shell (bcl_v ("chr" +:+ c) s e (vcf_file args))] ++ t, r)).
Proof.
  split; [exact popen_text_not_chr|]. split.
  - intros row. rewrite bed_body_eq.
    destruct (bed_store _ _ _ _) as [t r]. eexists _, r. reflexivity.
  - intros c s e H. rewrite (single_locus_eq env args c s e H). cbv zeta.
    destruct (single_store _ _ _ _) as [t r]. eexists _, r. reflexivity.
Qed.

Lemma region_name_ignores_source_witness :
  exists t r,
    single_locus env_unprefixed (args_single "1:100-200") =
    ([Print "Running single locus";
      Shell "gzcat in.vcf.gz | tail -1 | cut -f1";
      ChildStdout "1";
      Shell "bcftools view -r chr1:100-200 in.vcf.gz"] ++ t, r).
Proof.
  apply (proj2 (proj2 (region_name_ignores_source env_unprefixed
                         (args_single "1:100-200"))) "1" "100" "200").
  repeat split.
Defined.

(** The source has no prefix and holds a heterozygous variant at 1:150;
    the locus 1:100-200 is queried as chr1:100-200, nothing comes back and
    the run ends without output. *)
Example main_unprefixed_source :
  main env_unprefixed (args_single "1:100-200") =
  ([Makedirs "out";
    Shell "bcftools -v | head -1 | cut -d ' ' -f2";
    Print "bcftools version 1.9 running";
    Print "Running single locus";
    Shell "gzcat in.vcf.gz | tail -1 | cut -f1";
    ChildStdout "1";
    Shell "bcftools view -r chr1:100-200 in.vcf.gz";
    Shell "bcftools norm -m -";
    Shell "bcftools query -f '%CHROM\t%POS\t%REF\t%ALT[\t%TGT]\n'";
    WriteFile "out/chr1_prechrtable.txt";
    Print "No heterozygous variants in this region for this individual. Exiting."],
   Raise SystemExit).
Proof. reflexivity. Qed.

(** The source has the prefix and so has the locus; the name queried has it
    twice. *)
Example main_prefixed_locus :
  exists t r,
    main env_prefixed (args_single "chr1:100-200") = (t, r) /\
    In (ChildStdout "chr1") t /\
    In (Shell "bcftools view -r chrchr1:100-200 in.vcf.gz") t.
Proof. eexists _, _. split; [reflexivity|]. simpl. tauto. Qed.

(** ** Empty tables *)

(** An interval whose table is empty as read is skipped: the single-locus
    run exits and writes nothing, the loop body stores nothing and ends. *)
Lemma empty_table_skipped (args : Args) (vars : DataFrame) :
  empty vars = true ->
  (forall chrom tmp, exists msg,
      single_store args chrom tmp vars = ([Print msg], Raise SystemExit)) /\
  (forall row tmp, exists msg,
      bed_store args row tmp vars = ([Print msg; Remove tmp], Ok tt)).
Proof.
  intros H. unfold single_store, bed_store. rewrite H.
  split; intros; destruct (opt_f args); simpl; eauto.
Qed.

(** C2 (what the code does): the emptiness test of lines 133-140 and
    190-195 is on the table as read. A table that has rows, all of which
    the heterozygosity filter drops, passes the test: the single-locus run
    does not exit and hands the zero-row table to [to_hdf]; the loop body
    hands it to [hdf_out.put] under the interval's label. *)
Theorem zero_rows_after_filter_still_stored (args : Args) (vars fixed : DataFrame) :
  opt_f args = false ->
  empty vars = false ->
  vars_fixed false vars = Ok fixed ->
  rows fixed = [] ->
  (forall chrom tmp, exists path,
      single_store args chrom tmp vars
      = ([ToHdf path "all" fixed; Remove tmp], Ok tt)) /\
  (forall row tmp,
      renorm vars = Ok vars ->
      bed_store args row tmp vars
      = ([Put (bed_locus row) fixed;
          Print ("{'" +:+ bed_locus row +:+ "'} done.");
          Remove tmp], Ok tt)).
Proof.
  intros Hf Hne Hfix _. split.
  - intros chrom tmp. unfold single_store. rewrite Hne, Hf, Hfix.
    eexists. reflexivity.
  - intros row tmp Hre. unfold bed_store. rewrite Hne, Hf, Hre.
    cbn [andb lift bindM]. rewrite Hfix. reflexivity.
Qed.

Lemma zero_rows_after_filter_still_stored_witness :
  exists path,
    single_store (args_single "1:100-200") "chr1" "out/chr1_prechrtable.txt"
                 one_homozygous
    = ([ToHdf path "all" (mkDataFrame gens_columns []);
        Remove "out/chr1_prechrtable.txt"], Ok tt).
Proof.
  apply (zero_rows_after_filter_still_stored (args_single "1:100-200")
           one_homozygous (mkDataFrame gens_columns []));
    reflexivity.
Defined.

(** The whole run on that input: one homozygous variant in the region, no
    [-f]; the output file is written from a table without rows. *)
Example main_single_all_homozygous :
  main env_prefixed (args_single "1:100-200") =
  ([Makedirs "out";
    Shell "bcftools -v | head -1 | cut -d ' ' -f2";
    Print "bcftools version 1.9 running";
    Print "Running single locus";
    Shell "gzcat in.vcf.gz | tail -1 | cut -f1";
    ChildStdout "chr1";
    Shell "bcftools view -r chr1:100-200 in.vcf.gz";
    Shell "bcftools norm -m -";
    Shell "bcftools query -f '%CHROM\t%POS\t%REF\t%ALT[\t%TGT]\n'";
    WriteFile "out/chr1_prechrtable.txt";
    ToHdf "out/sample.hdf5" "all" (mkDataFrame gens_columns []);
    Remove "out/chr1_prechrtable.txt"],
   Ok tt).
Proof. reflexivity. Qed.

Example bed_store_all_homozygous :
  bed_store args_bed (mkBedRow (CInt 1) 100 200 "geneA") "out/1_prechrtable.txt"
    (read_csv [mkVariantLine (CInt 1) (CInt 150) (CStr "A") (CStr "G") (CStr "G|G")])
  = ([Put "geneA" (mkDataFrame gens_columns []);
      Print "{'geneA'} done.";
      Remove "out/1_prechrtable.txt"], Ok tt).
Proof. reflexivity. Qed.

(** ** The re-normalization step of the loop body *)

Lemma column_chrom (lines : list VariantLine) :
  column (read_csv lines) "chrom" = Ok (map v_chrom lines).
Proof.
  unfold column, read_csv. cbn [columns rows].
  induction lines as [|l lines IH]; [reflexivity|].
  cbn [map mapM]. rewrite IH. reflexivity.
Qed.

Lemma call_norm_chr_one_argument (x : cell) :
  call_norm_chr [x] = Raise TypeError.
Proof. now destruct x. Qed.

Lemma renorm_first_row (l : VariantLine) (ls : list VariantLine) :
  renorm (read_csv (l :: ls)) =
  if contains "chr" (str (v_chrom l)) then Raise TypeError
  else Ok (read_csv (l :: ls)).
Proof.
  unfold renorm. rewrite column_chrom. cbn [map bind index lookup list_lookup].
  destruct (contains "chr" (str (v_chrom l))); [|reflexivity].
  cbn [mapM]. now rewrite call_norm_chr_one_argument.
Qed.

Lemma for_each_raise {A} (body : A -> M unit) (x : A) (xs : list A) t e :
  body x = (t, Raise e) -> for_each body (x :: xs) = (t, Raise e).
Proof. intros H. cbn [for_each]. unfold bindM. now rewrite H. Qed.

(** C10: in the loop over the BED file, when the first row of an interval's
    table has "chr" in its chromosome cell, line 144 calls [norm_chr] with
    one argument; the call raises [TypeError], nothing is stored for the
    interval, and the loop and the run end there. The step passes, leaving
    the table as it is, exactly when the first row has no "chr"; so it
    passes when no row has, and, for a table whose rows all carry the
    chromosome of the first, only then. *)
Theorem renorm_one_argument_call (env : Env) (args : Args) (row : BedRow)
    (l : VariantLine) (ls : list VariantLine) :
  bcftools_lines env (bed_view_cmd args row) = l :: ls ->
  (renorm (read_csv (l :: ls)) =
   if contains "chr" (str (v_chrom l)) then Raise TypeError
   else Ok (read_csv (l :: ls))) /\
  (contains "chr" (str (v_chrom l)) = true ->
   exists t,
     bed_body env args row = (t, Raise TypeError) /\
     (forall k v, ~ In (Put k v) t) /\
     (forall rest, for_each (bed_body env args) (row :: rest)
                   = (t, Raise TypeError)) /\
     (forall v rest,
         opt_bed args = true ->
         float_of_version env = Ok v ->
         PrimFloat.leb REQUIRED_BCFTOOLS_VER v = true ->
         read_bed env (locus args) = row :: rest ->
         exists t', main env args = (t', Raise TypeError) /\
                    forall k v, ~ In (Put k v) t')) /\
  (Forall no_chr (l :: ls) ->
   renorm (read_csv (l :: ls)) = Ok (read_csv (l :: ls))) /\
  (Forall (fun l' => v_chrom l' = v_chrom l) ls ->
   renorm (read_csv (l :: ls)) <> Raise TypeError ->
   Forall no_chr (l :: ls)).
Proof.
  intros Hlines. split; [apply renorm_first_row|]. split; [|split].
  - intros Hchr.
    assert (Hbody : bed_body env args row =
                    ([Shell (probe_cmd (vcf_file args));
                      ChildStdout (vcf_last_chrom env (vcf_file args));
                      Shell (bed_view_cmd args row);
                      Shell "bcftools norm -m -";
                      Shell "bcftools query -f '%CHROM\t%POS\t%REF\t%ALT[\t%TGT]\n'";
                      WriteFile (bed_temp args row)], Raise TypeError)).
    { rewrite bed_body_eq, Hlines. unfold bed_store.
      change (empty (read_csv (l :: ls))) with false.
      cbn [andb]. rewrite renorm_first_row, Hchr. reflexivity. }
    eexists. split; [exact Hbody|]. split; [|split].
    + intros k v. simpl. intuition discriminate.
    + intros rest. now apply for_each_raise.
    + intros v rest Hbed Hver Hge Hrows.
      unfold main, check_bcftools. rewrite Hbed, Hver.
      cbn [lift emit bindM]. rewrite Hge. cbn [emit bindM].
      rewrite Hrows, (for_each_raise _ _ rest _ _ Hbody).
      eexists. split; [reflexivity|].
      intros k v'. simpl. intuition discriminate.
  - intros Hall. rewrite renorm_first_row.
    apply Forall_inv in Hall. unfold no_chr in Hall. now rewrite Hall.
  - intros Hsame Hok. rewrite renorm_first_row in Hok.
    destruct (contains "chr" (str (v_chrom l))) eqn:E; [congruence|].
    constructor; [exact E|].
    eapply Forall_impl; [exact Hsame|].
    intros l' Hl'. unfold no_chr. now rewrite Hl'.
Qed.

Lemma renorm_one_argument_call_witness :
  exists t,
    bed_body env_prefixed args_bed (mkBedRow (CInt 1) 100 200 "geneA")
    = (t, Raise TypeError) /\
    (forall k v, ~ In (Put k v) t).
Proof.
  destruct (renorm_one_argument_call env_prefixed args_bed
              (mkBedRow (CInt 1) 100 200 "geneA")
              (mkVariantLine (CStr "chr1") (CInt 150) (CStr "A") (CStr "G") (CStr "G|G"))
              [] eq_refl) as (_ & H & _).
  destruct (H eq_refl) as (t & Hbody & Hput & _).
  exists t. split; assumption.
Defined.

(** The whole run over a BED file of two intervals: the first interval's
    table names its chromosome "chr1"; the run ends in [TypeError] there,
    nothing is stored and the second interval is never queried. *)
Example main_bed_type_error :
  main env_prefixed args_bed =
  ([Makedirs "out";
    Shell "bcftools -v | head -1 | cut -d ' ' -f2";
    Print "bcftools version 1.9 running";
    Print "Analyzing BED file genes.bed";
    OpenStore "out/sample.h5";
    Shell "gzcat in.vcf.gz | tail -1 | cut -f1";
    ChildStdout "chr1";
    Shell "bcftools view -r chr1:100-200 in.vcf.gz";
    Shell "bcftools norm -m -";
    Shell "bcftools query -f '%CHROM\t%POS\t%REF\t%ALT[\t%TGT]\n'";
    WriteFile "out/1_prechrtable.txt"],
   Raise TypeError).
Proof. reflexivity. Qed.

(** ** Targetability tables and their queries *)

Lemma filterM_pure {A} (f : A -> result bool) (g : A -> bool) (l : list A) :
  (forall x, In x l -> f x = Ok (g x)) -> filterM f l = Ok (List.filter g l).
Proof.
  induction l as [|x l IH]; simpl; intros H; [reflexivity|].
  rewrite H, IH by auto. simpl. now destruct (g x).
Qed.

Lemma bool_column_row (df : DataFrame) (n : string) (row : list cell) :
  bool_column df n = true -> In row (rows df) ->
  exists b, getitem (columns df) row n = Ok (CBool b).
Proof.
  unfold bool_column, getitem.
  destruct (index_of n (columns df)) as [i|]; [|discriminate].
  intros H Hin. rewrite forallb_forall in H. specialize (H row Hin).
  destruct (row !! i) as [[| |b]|]; try discriminate. eauto.
Qed.

Lemma bool_column_resolves (df : DataFrame) (e : expr) :
  (forall n, In n (names e) -> bool_column df n = true) ->
  resolves (columns df) e = true.
Proof.
  induction e as [n|e1 IH1 e2 IH2]; simpl; intros H.
  - specialize (H n (or_introl eq_refl)). unfold bool_column in H.
    now destruct (index_of n (columns df)).
  - rewrite IH1, IH2; [reflexivity| |]; intros n Hn; apply H, in_or_app; auto.
Qed.

Lemma eval_holds (df : DataFrame) (e : expr) (row : list cell) :
  (forall n, In n (names e) -> bool_column df n = true) ->
  In row (rows df) ->
  eval (columns df) row e = Ok (holds (columns df) row e).
Proof.
  intros H Hin. induction e as [n|e1 IH1 e2 IH2]; simpl.
  - destruct (bool_column_row df n row) as [b ->]; auto.
    + apply H. simpl. auto.
    + now destruct b.
  - rewrite IH1, IH2; [reflexivity| |]; intros n Hn; apply H; simpl;
      apply in_or_app; auto.
Qed.

Lemma targ_frac_count (df : DataFrame) (e : expr) :
  (forall n, In n (names e) -> bool_column df n = true) ->
  targ_frac df e = Ok (frac (count_rows df e)).
Proof.
  intros H. unfold targ_frac, query.
  rewrite bool_column_resolves by assumption.
  rewrite (filterM_pure _ (fun row => holds (columns df) row e)).
  - reflexivity.
  - intros row Hin. now apply eval_holds.
Qed.

Lemma targ_table_emitted (df : DataFrame) (le : string * expr) :
  is_targ_table df = true -> In le emitted ->
  targ_frac df (snd le) = Ok (frac (count_rows df (snd le))).
Proof.
  intros Hwf Hin. apply targ_frac_count. intros n Hn.
  unfold is_targ_table in Hwf. rewrite forallb_forall in Hwf. apply Hwf.
  simpl in Hin.
  repeat (destruct Hin as [<-|Hin];
          [simpl in Hn; simpl; intuition (subst; auto 20)|]).
  contradiction.
Qed.

(** ** The aggregator's loop *)

Lemma repr_app (s : State) (rs : list SummaryRow) :
  repr s rs -> zip3 (cases s) (genes s) (perc_ppl_targ s) = rs /\
               length (cases s) = length (genes s) /\
               length (genes s) = length (perc_ppl_targ s).
Proof.
  intros (-> & -> & ->). rewrite !length_map. split; [|auto].
  induction rs as [|[c g p] rs IH]; simpl; [reflexivity|]. now rewrite IH.
Qed.

Section Loop.

Local Arguments targ_frac : simpl never.
Local Arguments frac : simpl never.
Local Arguments count_rows : simpl never.
Local Arguments table_path : simpl never.

Variable fs : gmap string DataFrame.
Variable argv2 : string.
Variable n_genes : Z.

Lemma gene_body_found (gene : string) (df : DataFrame) (s : State) :
  fs !! table_path argv2 gene = Some df ->
  is_targ_table df = true ->
  gene_body fs argv2 n_genes gene s =
  ({| cases := cases s ++ map fst emitted;
      genes := genes s ++ map (fun _ => gene) emitted;
      perc_ppl_targ :=
        perc_ppl_targ s ++ map (fun le => frac (count_rows df (snd le))) emitted;
      counter := counter s + 1;
      not_eval := not_eval s;
      printed := printed s ++ [(n_genes - (counter s + 1))%Z] |}, Ok tt).
Proof.
  intros Hfs Hwf.
  assert (Hq : Forall (fun le => targ_frac df (snd le)
                                 = Ok (frac (count_rows df (snd le)))) emitted).
  { apply List.Forall_forall. intros le. now apply targ_table_emitted. }
  unfold emitted in Hq.
  repeat (apply Forall_cons_1 in Hq as [?Hq Hq]). clear Hq. cbn [snd] in *.
  unfold gene_body, try_except_FileNotFoundError, read_hdf.
  fold (table_path argv2 gene). rewrite Hfs. destruct s.
  unfold cas_list, for_eachS, cas_body, bindS, genes_append, cases_append,
    perc_ppl_targ_append, counter_incr, print_remaining, liftS, retS.
  cbv beta iota delta [String.append]. simpl.
  rewrite Hq0; simpl; rewrite Hq1; simpl; rewrite Hq2; simpl;
    rewrite Hq3; simpl; rewrite Hq4; simpl; rewrite Hq5; simpl;
    rewrite Hq6; simpl; rewrite Hq7; simpl; rewrite Hq8; simpl;
    rewrite Hq9; simpl; rewrite Hq10; simpl; rewrite Hq11; simpl.
  rewrite <- !app_assoc. reflexivity.
Qed.

Lemma gene_body_missing (gene : string) (s : State) :
  fs !! table_path argv2 gene = None ->
  gene_body fs argv2 n_genes gene s =
  ({| cases := cases s;
      genes := genes s;
      perc_ppl_targ := perc_ppl_targ s;
      counter := counter s + 1;
      not_eval := not_eval s ++ [gene];
      printed := printed s ++ [(n_genes - (counter s + 1))%Z] |}, Ok tt).
Proof.
  intros Hfs.
  unfold gene_body, try_except_FileNotFoundError, read_hdf.
  fold (table_path argv2 gene). rewrite Hfs. reflexivity.
Qed.

Lemma genes_loop (l : list string) (s : State) (rs : list SummaryRow) :
  tables_ok fs argv2 l -> repr s rs ->
  exists s',
    for_eachS (gene_body fs argv2 n_genes) l s = (s', Ok tt) /\
    repr s' (rs ++ flat_map (found_rows fs argv2) l) /\
    not_eval s' = not_eval s ++ List.filter (missing fs argv2) l.
Proof.
  revert s rs. induction l as [|gene l IH]; intros s rs Hok Hrepr.
  - exists s. simpl. rewrite !app_nil_r. auto.
  - assert (Hok' : tables_ok fs argv2 l).
    { intros g df Hg. apply Hok. now right. }
    cbn [for_eachS flat_map List.filter]. unfold bindS, found_rows, missing.
    destruct (fs !! table_path argv2 gene) as [df|] eqn:Hfs.
    + rewrite (gene_body_found gene df s Hfs) by (eapply Hok; [now left|eauto]).
      match goal with
      | |- context [for_eachS _ l ?s1] =>
          destruct (IH s1 (rs ++ gene_block gene df) Hok')
            as (s' & Hrun & Hr & Hn)
      end.
      { destruct Hrepr as (Hc & Hg & Hp). unfold repr, gene_block.
        cbn [cases genes perc_ppl_targ]. rewrite Hc, Hg, Hp.
        rewrite !map_app, !map_map. auto. }
      exists s'. rewrite Hrun. split; [reflexivity|].
      rewrite <- app_assoc in Hr. split; [exact Hr|exact Hn].
    + rewrite (gene_body_missing gene s Hfs).
      match goal with
      | |- context [for_eachS _ l ?s1] =>
          destruct (IH s1 rs Hok') as (s' & Hrun & Hr & Hn)
      end.
      { exact Hrepr. }
      exists s'. rewrite Hrun. split; [reflexivity|].
      split; [exact Hr|]. rewrite Hn. cbn [not_eval].
      now rewrite <- app_assoc.
Qed.

End Loop.

Lemma script_eq (fs : gmap string DataFrame) (genes_eval : list string)
    (argv2 argv3 : string) :
  tables_ok fs argv2 genes_eval ->
  script fs genes_eval argv2 argv3 =
  Ok {| not_eval_path := argv3 +:+ "not_eval.txt";
        not_eval_txt :=
          not_eval_lines (List.filter (missing fs argv2) genes_eval);
        summary_path := argv3 +:+ "targ_per_gene_and_cas.tsv";
        summary := flat_map (found_rows fs argv2) genes_eval |}.
Proof.
  intros Hok. unfold script.
  destruct (genes_loop fs argv2 (Z.of_nat (length genes_eval))
              genes_eval init [] Hok) as (s' & Hrun & Hr & Hn).
  { repeat split. }
  rewrite Hrun. unfold overall_df.
  destruct (repr_app _ _ Hr) as (Hz & Hl1 & Hl2).
  rewrite Hl1, Hl2, !Nat.eqb_refl, Hz, Hn. reflexivity.
Qed.

(** ** The aggregator's output *)

Lemma string_app_assoc (a b c : string) :
  (a +:+ b) +:+ c = a +:+ (b +:+ c).
Proof.
  induction a as [|ch a IH]; [reflexivity|].
  change (String ch ((a +:+ b) +:+ c) = String ch (a +:+ (b +:+ c))).
  now rewrite IH.
Qed.

Lemma not_eval_lines_app (a b : list string) :
  not_eval_lines (a ++ b) = not_eval_lines a +:+ not_eval_lines b.
Proof.
  induction a as [|g a IH]; [reflexivity|].
  change (g +:+ String "010" (not_eval_lines (a ++ b))
          = (g +:+ String "010" (not_eval_lines a)) +:+ not_eval_lines b).
  rewrite IH, string_app_assoc. reflexivity.
Qed.

Lemma tables_ok_app fs argv2 (pre post : list string) (gene : string) :
  tables_ok fs argv2 (pre ++ gene :: post) ->
  tables_ok fs argv2 pre /\ tables_ok fs argv2 post /\
  tables_ok fs argv2 (pre ++ post).
Proof.
  intros H. repeat split; intros g df Hg; apply H;
    rewrite ?in_app_iff in *; simpl; tauto.
Qed.

Lemma found_rows_gene fs argv2 (gene : string) (r : SummaryRow) :
  In r (found_rows fs argv2 gene) ->
  row_gene r = gene /\
  exists df e, fs !! table_path argv2 gene = Some df /\
               In (row_cas r, e) emitted /\
               row_perc r = frac (count_rows df e).
Proof.
  unfold found_rows. destruct (fs !! table_path argv2 gene) as [df|];
    [|contradiction].
  unfold gene_block. intros H. apply in_map_iff in H as ([label e] & <- & Hin).
  split; [reflexivity|]. exists df, e. auto.
Qed.

Local Arguments frac : simpl never.
Local Arguments count_rows : simpl never.

(** C7: when the table of a gene is found, the summary holds for it, where
    it stands among the genes, twelve rows: "all" first, from [targ_all];
    then one row for each identifier of [cas_list] other than the two
    sub-cases, from its own column; and in the place of the sub-cases one
    row labelled "SpCas9_VQR", whose condition is true on a row exactly
    when one of the two sub-case columns is. *)
Theorem gene_rows_merged (fs : gmap string DataFrame) (pre post : list string)
    (gene : string) (df : DataFrame) (argv2 argv3 : string) :
  fs !! table_path argv2 gene = Some df ->
  tables_ok fs argv2 (pre ++ gene :: post) ->
  exists out block,
    script fs (pre ++ gene :: post) argv2 argv3 = Ok out /\
    summary out = flat_map (found_rows fs argv2) pre ++ block
                  ++ flat_map (found_rows fs argv2) post /\
    map row_cas block =
      ["all"; "SpCas9"; "SpCas9_VRER"; "SpCas9_EQR"; "SpCas9_VQR"; "StCas9";
       "StCas9_2"; "SaCas9"; "SaCas9_KKH"; "nmCas9"; "cjCas9"; "cpf1"] /\
    Forall (fun r => row_gene r = gene) block /\
    head block
    = Some (mkSummaryRow "all" gene (frac (count_rows df (QCol "targ_all")))) /\
    In (mkSummaryRow "SpCas9_VQR" gene
          (frac (count_rows df (QOr (QCol "targ_SpCas9_VQR_1")
                                    (QCol "targ_SpCas9_VQR_2"))))) block /\
    (forall cas, In cas cas_list ->
                 cas <> "SpCas9_VQR_1" -> cas <> "SpCas9_VQR_2" ->
                 In (mkSummaryRow cas gene
                       (frac (count_rows df (QCol ("targ_" +:+ cas))))) block) /\
    (forall r, In r block ->
               row_cas r <> "SpCas9_VQR_1" /\ row_cas r <> "SpCas9_VQR_2") /\
    (forall row,
        holds (columns df) row (QOr (QCol "targ_SpCas9_VQR_1")
                                    (QCol "targ_SpCas9_VQR_2"))
        = holds (columns df) row (QCol "targ_SpCas9_VQR_1")
          || holds (columns df) row (QCol "targ_SpCas9_VQR_2")).
Proof.
  intros Hfs Hok. rewrite (script_eq _ _ _ _ Hok).
  eexists _, (gene_block gene df). split; [reflexivity|].
  cbn [summary]. split.
  { rewrite flat_map_app. cbn [flat_map]. unfold found_rows at 2.
    now rewrite Hfs. }
  split; [reflexivity|]. split.
  { unfold gene_block. apply List.Forall_forall. intros r Hr.
    apply in_map_iff in Hr as (le & <- & _). reflexivity. }
  split; [reflexivity|]. split.
  { unfold gene_block, emitted. cbn [map fst snd In]. tauto. }
  split.
  { intros cas Hcas H1 H2. unfold gene_block, emitted. cbn [map fst snd In].
    unfold cas_list in Hcas. cbn [In] in Hcas.
    repeat (destruct Hcas as [<-|Hcas];
            [first [contradiction
                   | cbv beta iota delta [String.append]; tauto]|]).
    contradiction. }
  split; [|reflexivity].
  intros r Hr. unfold gene_block, emitted in Hr. cbn [map fst snd In] in Hr.
  repeat (destruct Hr as [<-|Hr]; [split; discriminate|]). contradiction.
Qed.

(** C8: every row of the summary carries the number of rows of its gene's
    table on which its condition is true, as a double, divided by 2504.0;
    and a condition true on no row gives a row whose fraction is 0.0. *)
Theorem fraction_is_count_over_2504 (fs : gmap string DataFrame)
    (genes_eval : list string) (argv2 argv3 : string) :
  tables_ok fs argv2 genes_eval ->
  exists out,
    script fs genes_eval argv2 argv3 = Ok out /\
    (forall r, In r (summary out) ->
       exists df e,
         In (row_gene r) genes_eval /\
         fs !! table_path argv2 (row_gene r) = Some df /\
         In (row_cas r, e) emitted /\
         row_perc r
         = PrimFloat.div (float_of_count (count_rows df e)) 2504%float) /\
    (forall gene df label e,
        In gene genes_eval ->
        fs !! table_path argv2 gene = Some df ->
        In (label, e) emitted ->
        count_rows df e = 0 ->
        In (mkSummaryRow label gene 0%float) (summary out)).
Proof.
  intros Hok. rewrite (script_eq _ _ _ _ Hok). eexists. split; [reflexivity|].
  cbn [summary]. split.
  - intros r Hr. apply in_flat_map in Hr as (gene & Hgene & Hr).
    apply found_rows_gene in Hr as (Hg & df & e & Hfs & He & Hp).
    exists df, e. rewrite Hg. auto.
  - intros gene df label e Hgene Hfs He H0.
    apply in_flat_map. exists gene. split; [assumption|].
    unfold found_rows. rewrite Hfs. unfold gene_block.
    apply in_map_iff. exists (label, e). cbn [fst snd]. rewrite H0.
    split; [reflexivity|assumption].
Qed.

(** C9: a gene whose table is not there is written to the list of genes
    not evaluated, on a line of its own; it adds no row to the summary, and
    the summary is what it would be had the gene not been in the list; the
    run ends normally. *)
Theorem missing_gene_recorded (fs : gmap string DataFrame)
    (pre post : list string) (gene : string) (argv2 argv3 : string) :
  fs !! table_path argv2 gene = None ->
  tables_ok fs argv2 (pre ++ gene :: post) ->
  exists out out',
    script fs (pre ++ gene :: post) argv2 argv3 = Ok out /\
    script fs (pre ++ post) argv2 argv3 = Ok out' /\
    summary out = summary out' /\
    (forall r, In r (summary out) -> row_gene r <> gene) /\
    (exists before after,
        not_eval_txt out = before +:+ gene +:+ String "010" after /\
        not_eval_txt out' = before +:+ after).
Proof.
  intros Hfs Hok. destruct (tables_ok_app _ _ _ _ _ Hok) as (_ & _ & Hok').
  rewrite (script_eq _ _ _ _ Hok), (script_eq _ _ _ _ Hok').
  eexists _, _. split; [reflexivity|]. split; [reflexivity|].
  cbn [summary not_eval_txt]. split; [|split].
  - rewrite !flat_map_app. cbn [flat_map]. unfold found_rows at 2.
    now rewrite Hfs.
  - intros r Hr Heq. apply in_flat_map in Hr as (g & _ & Hr).
    apply found_rows_gene in Hr as (Hg & df & _ & Hdf & _).
    congruence.
  - exists (not_eval_lines (List.filter (missing fs argv2) pre)),
           (not_eval_lines (List.filter (missing fs argv2) post)).
    rewrite !List.filter_app. cbn [List.filter]. unfold missing at 2.
    rewrite Hfs, !not_eval_lines_app. split; reflexivity.
Qed.

Lemma cohort_tables_ok : tables_ok cohort_fs "tables/" ["BRCA1"; "TP53"].
Proof.
  intros gene df [<-|[<-|[]]] H; vm_compute in H; [|discriminate].
  injection H as <-. reflexivity.
Qed.

Lemma gene_rows_merged_witness :
  exists out block,
    script cohort_fs ["BRCA1"; "TP53"] "tables/" "out/" = Ok out /\
    summary out = block /\
    map row_cas block =
      ["all"; "SpCas9"; "SpCas9_VRER"; "SpCas9_EQR"; "SpCas9_VQR"; "StCas9";
       "StCas9_2"; "SaCas9"; "SaCas9_KKH"; "nmCas9"; "cjCas9"; "cpf1"].
Proof.
  destruct (gene_rows_merged cohort_fs [] ["TP53"] "BRCA1" cohort_table
              "tables/" "out/" eq_refl cohort_tables_ok)
    as (out & block & Hrun & Hsum & Hcas & _).
  exists out, block. split; [exact Hrun|]. split; [|exact Hcas].
  rewrite Hsum. cbn [flat_map app]. unfold found_rows.
  change (cohort_fs !! table_path "tables/" "TP53") with (@None DataFrame).
  cbn [app]. apply app_nil_r.
Defined.

Lemma fraction_is_count_over_2504_witness :
  exists out,
    script cohort_fs ["BRCA1"; "TP53"] "tables/" "out/" = Ok out /\
    In (mkSummaryRow "cpf1" "BRCA1" 0%float) (summary out).
Proof.
  destruct (fraction_is_count_over_2504 cohort_fs ["BRCA1"; "TP53"]
              "tables/" "out/" cohort_tables_ok) as (out & Hrun & _ & Hzero).
  exists out. split; [exact Hrun|].
  apply (Hzero "BRCA1" cohort_table "cpf1" (QCol "targ_cpf1")).
  - simpl. tauto.
  - reflexivity.
  - simpl. tauto.
  - reflexivity.
Defined.

Lemma missing_gene_recorded_witness :
  exists out,
    script cohort_fs ["BRCA1"; "TP53"] "tables/" "out/" = Ok out /\
    (forall r, In r (summary out) -> row_gene r <> "TP53").
Proof.
  destruct (missing_gene_recorded cohort_fs ["BRCA1"] [] "TP53"
              "tables/" "out/" eq_refl cohort_tables_ok)
    as (out & _ & Hrun & _ & _ & Hno & _).
  exists out. split; assumption.
Defined.

(** The run on the small cohort: two of the three members are targetable
    by some enzyme, one by SpCas9; one member is targetable through the
    first sub-case only and one through the second only, and both count in
    the merged row; the gene without a table is listed and has no row. *)
Example script_cohort :
  script cohort_fs ["BRCA1"; "TP53"] "tables/" "out/" =
  Ok {| not_eval_path := "out/not_eval.txt";
        not_eval_txt := "TP53" +:+ String "010" "";
        summary_path := "out/targ_per_gene_and_cas.tsv";
        summary :=
          [mkSummaryRow "all" "BRCA1" (frac 2);
           mkSummaryRow "SpCas9" "BRCA1" (frac 1);
           mkSummaryRow "SpCas9_VRER" "BRCA1" 0%float;
           mkSummaryRow "SpCas9_EQR" "BRCA1" 0%float;
           mkSummaryRow "SpCas9_VQR" "BRCA1" (frac 2);
           mkSummaryRow "StCas9" "BRCA1" 0%float;
           mkSummaryRow "StCas9_2" "BRCA1" 0%float;
           mkSummaryRow "SaCas9" "BRCA1" 0%float;
           mkSummaryRow "SaCas9_KKH" "BRCA1" 0%float;
           mkSummaryRow "nmCas9" "BRCA1" 0%float;
           mkSummaryRow "cjCas9" "BRCA1" 0%float;
           mkSummaryRow "cpf1" "BRCA1" 0%float] |}.
Proof. vm_compute. reflexivity. Qed.

Example frac_half : frac 1252 = 0.5%float.
Proof. vm_compute. reflexivity. Qed.

(** * Further properties of the extractor *)

(** ** Start of a run *)

Lemma main_started (env : Env) (args : Args) (v : float) :
  float_of_version env = Ok v ->
  PrimFloat.leb REQUIRED_BCFTOOLS_VER v = true ->
  main env args =
  let '(t, r) :=
    if opt_bed args then
      GetChrTables.bindM
        (GetChrTables.emit (Print ("Analyzing BED file " +:+ locus args)))
        (fun _ => GetChrTables.bindM
           (GetChrTables.emit
              (OpenStore (path_join (outdir args) (name args +:+ ".h5"))))
           (fun _ => for_each (bed_body env args) (read_bed env (locus args))))
    else if endswith (locus args) ".bed" || endswith (locus args) ".BED" then
      ([Print "Must specify --bed if inputting a BED file. Exiting."],
       Raise SystemExit)
    else single_locus env args in
  (start_events env args ++ t, r).
Proof.
  intros Hv Hge. unfold main, check_bcftools, start_events. rewrite Hv.
  cbn [lift emit GetChrTables.bindM]. rewrite Hge.
  cbn [emit GetChrTables.bindM]. destruct (opt_bed args).
  - destruct (for_each _ _) as [t r]. reflexivity.
  - destruct (endswith (locus args) ".bed" || endswith (locus args) ".BED").
    + reflexivity.
    + destruct (single_locus env args) as [t r]. reflexivity.
Qed.

(** X1: with a bcftools older than 1.5 the run creates the output
    directory, reports the version and exits; it reads no locus, starts no
    query and writes no file. *)
Theorem old_bcftools_exits (env : Env) (args : Args) (v : float) :
  float_of_version env = Ok v ->
  PrimFloat.leb REQUIRED_BCFTOOLS_VER v = false ->
  main env args =
  ([Makedirs (outdir args);
    Shell "bcftools -v | head -1 | cut -d ' ' -f2";
    Print ("Error: bcftools must be >=1.5. Current version: "
           +:+ bcftools_version env)],
   Raise SystemExit).
Proof.
  intros Hv Hlt. unfold main, check_bcftools. rewrite Hv.
  cbn [lift emit GetChrTables.bindM]. rewrite Hlt. reflexivity.
Qed.

Lemma old_bcftools_exits_witness :
  main env_old_bcftools args_bed =
  ([Makedirs "out";
    Shell "bcftools -v | head -1 | cut -d ' ' -f2";
    Print "Error: bcftools must be >=1.5. Current version: 1.0"],
   Raise SystemExit).
Proof.
  apply (old_bcftools_exits env_old_bcftools args_bed 1%float); reflexivity.
Defined.

(** X2: a locus whose name ends in [.bed] or [.BED], given without [--bed],
    ends the run with a message before any probe or query. *)
Theorem bed_file_without_flag_exits (env : Env) (args : Args) (v : float) :
  float_of_version env = Ok v ->
  PrimFloat.leb REQUIRED_BCFTOOLS_VER v = true ->
  opt_bed args = false ->
  endswith (locus args) ".bed" || endswith (locus args) ".BED" = true ->
  main env args =
  (start_events env args
     ++ [Print "Must specify --bed if inputting a BED file. Exiting."],
   Raise SystemExit).
Proof.
  intros Hv Hge Hbed Hext. rewrite (main_started env args v Hv Hge).
  now rewrite Hbed, Hext.
Qed.

Lemma bed_file_without_flag_exits_witness :
  main env_prefixed (args_single "genes.BED") =
  (start_events env_prefixed (args_single "genes.BED")
     ++ [Print "Must specify --bed if inputting a BED file. Exiting."],
   Raise SystemExit).
Proof.
  apply (bed_file_without_flag_exits env_prefixed (args_single "genes.BED")
           2%float); reflexivity.
Defined.

(** ** Single-locus runs *)

(** X3: a locus without [:], or with a range without [-], makes the
    single-locus branch raise [IndexError] after the probe: no query is
    started and no file is written. *)
Theorem malformed_locus_raises (env : Env) (args : Args) :
  (count_alts [":"%char] (locus args) = 0 \/
   exists c r, locus args = c +:+ ":" +:+ r /\
               count_alts [":"%char] c = 0 /\
               count_alts [":"%char; "-"%char] r = 0) ->
  single_locus env args =
  ([Print "Running single locus";
    Shell (probe_cmd (vcf_file args));
    ChildStdout (vcf_last_chrom env (vcf_file args))],
   Raise IndexError).
Proof.
  intros [H|(c & r & Hl & Hc & Hr)];
    unfold single_locus, probe, GetChrTables.bindM, emit, ret, lift, split.
  - rewrite (re_split_no_alt _ _ H). reflexivity.
  - apply count_alts_cons in Hr as [Hr1 Hr2]. rewrite Hl.
    change (c +:+ ":" +:+ r) with (c +:+ String ":" r).
    rewrite re_split_app by (assumption || reflexivity).
    rewrite (re_split_no_alt _ _ Hr1). cbn [index lookup list_lookup].
    rewrite (re_split_no_alt _ _ Hr2). reflexivity.
Qed.

Lemma malformed_locus_raises_witness :
  single_locus env_prefixed (args_single "chr1") =
  ([Print "Running single locus";
    Shell "gzcat in.vcf.gz | tail -1 | cut -f1";
    ChildStdout "chr1"],
   Raise IndexError).
Proof.
  apply (malformed_locus_raises env_prefixed (args_single "chr1")).
  left. reflexivity.
Defined.

(** X4: when nothing comes back for the locus, the single-locus branch
    exits just after writing the temporary file: the file is left behind
    and there is no output file. *)
Theorem single_locus_empty_leaves_temp (env : Env) (args : Args)
    (c s e : string) :
  locus_fields (locus args) c s e ->
  bcftools_lines env (bcl_v ("chr" +:+ c) s e (vcf_file args)) = [] ->
  single_locus env args =
  (single_events env args c s e
     ++ [Print (if opt_f args
                then "No variants in this region for this individual. Exiting."
                else "No heterozygous variants in this region for this individual. Exiting.")],
   Raise SystemExit).
Proof.
  intros Hl Hlines. rewrite (single_locus_eq env args c s e Hl). cbv zeta.
  rewrite Hlines. unfold single_store. change (empty (read_csv [])) with true.
  destruct (opt_f args); reflexivity.
Qed.

Lemma single_locus_empty_leaves_temp_witness :
  single_locus env_unprefixed (args_single "1:100-200") =
  (single_events env_unprefixed (args_single "1:100-200") "1" "100" "200"
     ++ [Print "No heterozygous variants in this region for this individual. Exiting."],
   Raise SystemExit).
Proof.
  apply (single_locus_empty_leaves_temp env_unprefixed
           (args_single "1:100-200") "1" "100" "200").
  - repeat split.
  - reflexivity.
Defined.



(** ** The temporary file of the loop body *)

(** X6: the loop body writes its temporary file on every path. When the body
    ends normally (the interval is skipped or stored) its last act is to
    remove that file; when it raises, nothing is removed and the file is
    left behind. *)
Theorem bed_body_temp_file (env : Env) (args : Args) (row : BedRow) :
  In (WriteFile (bed_temp args row)) (fst (bed_body env args row)) /\
  match snd (bed_body env args row) with
  | Ok _ => exists t, fst (bed_body env args row)
                      = t ++ [Remove (bed_temp args row)]
  | Raise _ => forall path, ~ In (Remove path) (fst (bed_body env args row))
  end.
Proof.
  rewrite bed_body_eq. unfold bed_store.
  destruct (empty _ && opt_f args); [|destruct (empty _ && negb (opt_f args))].
  - split; [simpl; tauto|]. cbn [emit GetChrTables.bindM app fst snd].
    eexists (_ :: _ :: _ :: _ :: _ :: _ :: [_]). reflexivity.
  - split; [simpl; tauto|]. cbn [emit GetChrTables.bindM app fst snd].
    eexists (_ :: _ :: _ :: _ :: _ :: _ :: [_]). reflexivity.
  - destruct (renorm _) as [vars|x]; cbn [lift GetChrTables.bindM].
    + destruct (vars_fixed _ vars) as [fixed|x];
        cbn [emit lift GetChrTables.bindM app fst snd].
      * split; [simpl; tauto|].
        eexists (_ :: _ :: _ :: _ :: _ :: _ :: _ :: [_]). reflexivity.
      * split; [simpl; tauto|]. intros path. simpl. intuition discriminate.
    + cbn [app fst snd]. split; [simpl; tauto|].
      intros path. simpl. intuition discriminate.
Qed.

(** ** The loop over the BED file *)

Lemma for_each_app {A} (body : A -> M unit) (l1 l2 : list A) t1 :
  for_each body l1 = (t1, Ok tt) ->
  for_each body (l1 ++ l2) =
  (t1 ++ fst (for_each body l2), snd (for_each body l2)).
Proof.
  revert t1. induction l1 as [|x l1 IH]; intros t1 H.
  - injection H as <-. simpl. now destruct (for_each body l2).
  - cbn [for_each app] in *. unfold GetChrTables.bindM in *.
    destruct (body x) as [tx [[]|e]]; [|discriminate].
    destruct (for_each body l1) as [t [[]|e]] eqn:E; [|discriminate].
    injection H as <-. rewrite (IH t eq_refl).
    destruct (for_each body l2) as [t2 r2]. cbn [fst snd].
    now rewrite app_assoc.
Qed.

Lemma puts_of_app (t1 t2 : list event) :
  puts_of (t1 ++ t2) = puts_of t1 ++ puts_of t2.
Proof.
  induction t1 as [|ev t1 IH]; [reflexivity|].
  destruct ev; simpl; now rewrite IH.
Qed.

(** X7: the loop stops at the first interval whose body raises: what the
    earlier intervals stored stays stored, the exception leaves the loop,
    and no later interval is probed or queried. *)
Theorem bed_loop_stops_at_raise (env : Env) (args : Args)
    (pre post : list BedRow) (row : BedRow) (t1 t : list event) (e : exn) :
  for_each (bed_body env args) pre = (t1, Ok tt) ->
  bed_body env args row = (t, Raise e) ->
  for_each (bed_body env args) (pre ++ row :: post) = (t1 ++ t, Raise e) /\
  puts_of (t1 ++ t) = puts_of t1.
Proof.
  intros Hpre Hrow. split.
  - rewrite (for_each_app _ _ _ _ Hpre).
    now rewrite (for_each_raise _ _ post _ _ Hrow).
  - rewrite puts_of_app.
    pose proof (bed_body_eq env args row) as Heq. rewrite Hrow in Heq.
    unfold bed_store in Heq.
    destruct (empty _ && opt_f args); [discriminate|].
    destruct (empty _ && negb (opt_f args)); [discriminate|].
    destruct (renorm _) as [vars|x]; cbn [lift GetChrTables.bindM] in Heq.
    + destruct (vars_fixed _ vars) as [fixed|x];
        cbn [emit lift GetChrTables.bindM] in Heq; [discriminate|].
      injection Heq as -> _. apply app_nil_r.
    + injection Heq as -> _. apply app_nil_r.
Qed.

Lemma bed_loop_stops_at_raise_witness :
  for_each (bed_body env_prefixed args_bed)
    ([] ++ mkBedRow (CInt 1) 100 200 "geneA"
        :: [mkBedRow (CInt 2) 100 200 "geneB"])
  = ([] ++ bed_events env_prefixed args_bed (mkBedRow (CInt 1) 100 200 "geneA"),
     Raise TypeError).
Proof.
  apply (bed_loop_stops_at_raise env_prefixed args_bed [] _ _ [] _ TypeError);
    reflexivity.
Defined.




Lemma contains_chr_prefixed (x : string) : contains "chr" ("chr" +:+ x) = true.
Proof. now destruct x. Qed.

(** X9: when the pipe answers with lines that name the queried chromosome,
    the loop over a BED file never stores anything: the name queried always
    starts with "chr", so an interval with lines fails in the
    re-normalization step and an interval without lines is skipped. The run
    either skips every interval or ends in [TypeError]. *)
Theorem bed_loop_never_stores (env : Env) (args : Args) (l : list BedRow) :
  answers_with_queried_name env args l ->
  puts_of (fst (for_each (bed_body env args) l)) = [] /\
  (snd (for_each (bed_body env args) l) = Ok tt \/
   snd (for_each (bed_body env args) l) = Raise TypeError) /\
  (snd (for_each (bed_body env args) l) = Ok tt <->
   Forall (fun row => bcftools_lines env (bed_view_cmd args row) = []) l).
Proof.
  assert (Hbody : forall row,
             Forall (fun line => v_chrom line = CStr ("chr" +:+ str (bed_chr row)))
                    (bcftools_lines env (bed_view_cmd args row)) ->
             (bcftools_lines env (bed_view_cmd args row) = [] /\
              exists t, bed_body env args row = (t, Ok tt) /\ puts_of t = []) \/
             (bcftools_lines env (bed_view_cmd args row) <> [] /\
              exists t, bed_body env args row = (t, Raise TypeError) /\
                        puts_of t = [])).
  { intros row Hans. rewrite bed_body_eq. unfold bed_store.
    destruct (bcftools_lines env (bed_view_cmd args row)) as [|line ls] eqn:E.
    - left. split; [reflexivity|]. change (empty (read_csv [])) with true.
      destruct (opt_f args); eexists; split; reflexivity.
    - right. split; [discriminate|].
      change (empty (read_csv (line :: ls))) with false. cbn [andb].
      rewrite renorm_first_row. apply Forall_inv in Hans. rewrite Hans.
      cbn [str]. rewrite contains_chr_prefixed.
      eexists. split; reflexivity. }
  induction 1 as [|row l Hrow _ (IHp & IHr & IHi)].
  - repeat split; auto.
  - cbn [for_each]. unfold GetChrTables.bindM.
    destruct (Hbody row Hrow) as [(Hl & t & -> & Hp)|(Hl & t & -> & Hp)].
    + destruct (for_each (bed_body env args) l) as [t' r'] eqn:E.
      cbn [fst snd] in *. rewrite puts_of_app, Hp, IHp.
      split; [reflexivity|]. split; [exact IHr|].
      rewrite IHi. split.
      * intros H. now constructor.
      * intros H. now apply Forall_inv_tail in H.
    + cbn [fst snd]. split; [exact Hp|]. split; [now right|].
      split; [discriminate|]. intros H. apply Forall_inv in H. contradiction.
Qed.

Lemma bed_loop_never_stores_witness :
  puts_of (fst (for_each (bed_body env_prefixed args_bed)
                         [mkBedRow (CInt 1) 100 200 "geneA";
                          mkBedRow (CInt 2) 100 200 "geneB"])) = [].
Proof.
  apply (bed_loop_never_stores env_prefixed args_bed
           [mkBedRow (CInt 1) 100 200 "geneA";
            mkBedRow (CInt 2) 100 200 "geneB"]).
  unfold answers_with_queried_name. repeat constructor.
Defined.

(** * Further properties of the table operations *)

(** ** Heterozygosity *)

Lemma length_re_split (alts : list ascii) (s : string) :
  length (re_split alts s) = S (count_alts alts s).
Proof.
  induction s as [|c s IH]; [reflexivity|]. simpl.
  destruct (is_alt alts c); simpl; [now rewrite IH|].
  destruct (re_split alts s); simpl in *; [discriminate|assumption].
Qed.

Lemma het_str_cases (g : string) :
  (count_alts genotype_seps g = 1 /\ exists b, het (CStr g) = Ok b) \/
  (count_alts genotype_seps g <> 1 /\ het (CStr g) = Raise ValueError).
Proof.
  pose proof (length_re_split genotype_seps g) as Hlen.
  unfold het. fold genotype_seps.
  destruct (re_split genotype_seps g) as [|a [|b [|c l]]]; simpl in Hlen.
  - discriminate.
  - right. split; [lia|reflexivity].
  - left. split; [lia|eauto].
  - right. split; [lia|reflexivity].
Qed.

(** X10: on a string, [het] raises [ValueError] exactly when the string does
    not hold exactly one separator (no separator, as in a haploid call, or
    more than one), and otherwise returns a boolean; on a cell that is not a
    string it raises [TypeError]. *)
Theorem het_raises_iff (g : string) :
  (het (CStr g) = Raise ValueError <-> count_alts genotype_seps g <> 1) /\
  (count_alts genotype_seps g = 1 <-> exists b, het (CStr g) = Ok b) /\
  (forall z, het (CInt z) = Raise TypeError) /\
  (forall b, het (CBool b) = Raise TypeError).
Proof.
  destruct (het_str_cases g) as [(H1 & b & Hb)|(H1 & Hb)]; rewrite Hb.
  - split; [split; [discriminate | intros H; contradiction]|].
    split; [split; [eauto | auto]|].
    split; intros; reflexivity.
  - split; [split; [auto | reflexivity]|].
    split; [split; [intros H; contradiction | intros (b & H); discriminate]|].
    split; intros; reflexivity.
Qed.

(** ** Multiallelic cleanup *)

Lemma count_alts_first (alts : list ascii) (s : string) :
  count_alts alts s <> 0 ->
  exists l c r, s = l +:+ String c r /\ is_alt alts c = true /\
                count_alts alts l = 0.
Proof.
  induction s as [|a s IH]; [contradiction|].
  simpl. destruct (is_alt alts a) eqn:Ha; intros H.
  - exists EmptyString, a, s. auto.
  - destruct (IH H) as (l & c & r & -> & Hc & Hl).
    exists (String a l), c, r. simpl. rewrite Ha. auto.
Qed.

Lemma prefix_app (l r : string) : String.prefix l (l +:+ r) = true.
Proof.
  induction l as [|a l IH]; [now destruct r|].
  simpl. destruct (ascii_dec a a); [assumption|contradiction].
Qed.

Lemma prefix_refl (s : string) : String.prefix s s = true.
Proof.
  induction s as [|a s IH]; [reflexivity|].
  simpl. destruct (ascii_dec a a); [assumption|contradiction].
Qed.

Lemma fix_str_keep (s : string) :
  count_alts cell_seps s = 0 -> fix_multiallelics (CStr s) = Ok (CStr s).
Proof.
  intros Hs. unfold fix_multiallelics. rewrite splitters_test.
  simpl str. now rewrite Hs.
Qed.

Lemma fix_str_cut (l r : string) (c : ascii) :
  count_alts cell_seps l = 0 -> is_alt cell_seps c = true ->
  fix_multiallelics (CStr (l +:+ String c r)) = Ok (CStr l).
Proof.
  intros Hl Hc. unfold fix_multiallelics. rewrite splitters_test. simpl str.
  destruct (Nat.eqb_spec (count_alts cell_seps (l +:+ String c r)) 0) as [E|_].
  - now apply count_alts_app_sep in E.
  - simpl. fold cell_seps. now rewrite re_split_app.
Qed.

Lemma fix_not_str (c : cell) :
  (forall s, c <> CStr s) -> fix_multiallelics c = Ok c.
Proof.
  intros H. destruct c as [z|s|b].
  - unfold fix_multiallelics. rewrite splitters_test. simpl str.
    now rewrite str_of_Z_no_alt by apply plain_chars_not_cell_seps.
  - now destruct (H s).
  - now destruct b.
Qed.

(** X11: the cleanup is idempotent: what it returns it returns unchanged.
    For a string cell the result is a prefix of the cell and holds no [,]
    and no [;]. *)
Theorem fix_multiallelics_idempotent (c : cell) :
  exists c',
    fix_multiallelics c = Ok c' /\
    fix_multiallelics c' = Ok c' /\
    (forall s, c = CStr s ->
               exists t, c' = CStr t /\ String.prefix t s = true /\
                         count_alts cell_seps t = 0).
Proof.
  destruct c as [z|s|b].
  - exists (CInt z). rewrite fix_not_str by discriminate.
    repeat split. discriminate.
  - destruct (Nat.eq_dec (count_alts cell_seps s) 0) as [E|E].
    + exists (CStr s). rewrite fix_str_keep by assumption.
      repeat split. intros s' [= <-]. exists s.
      repeat split; [apply prefix_refl|assumption].
    + destruct (count_alts_first _ _ E) as (l & a & r & -> & Ha & Hl).
      exists (CStr l). rewrite fix_str_cut, fix_str_keep by assumption.
      repeat split. intros s' [= <-]. exists l.
      repeat split; [apply prefix_app|assumption].
  - exists (CBool b). rewrite fix_not_str by discriminate.
    repeat split. discriminate.
Qed.


(** ** Tables as read *)

Lemma read_csv_rows (lines : list VariantLine) :
  read_csv lines = {| columns := gens_columns; rows := map line_row lines |}.
Proof. reflexivity. Qed.







(** X13: on a table as read whose genotypes are strings, one genotype that
    does not hold exactly one separator makes [filter_hets] raise
    [ValueError]: no row is returned, not even the rows before it. *)
Theorem filter_hets_raises_on_bad_genotype (lines : list VariantLine) :
  Forall (fun l => exists g, v_genotype l = CStr g) lines ->
  Exists (fun l => exists g, v_genotype l = CStr g /\
                             count_alts genotype_seps g <> 1) lines ->
  filter_hets (read_csv lines) = Raise ValueError.
Proof.
  intros Hstr Hbad. unfold filter_hets, apply_rows.
  rewrite read_csv_rows. cbn [columns rows].
  assert (H : mapM (fun row =>
                      let* g := getitem gens_columns row "genotype" in
                      let* b := het g in Ok (CBool b))
                   (map line_row lines)
              = Raise ValueError).
  { induction Hstr as [|l lines (g & Hg) _ IH]; [inversion Hbad|].
    cbn [map mapM]. change (getitem gens_columns (line_row l) "genotype")
      with (Ok (v_genotype l)).
    cbn [bind]. rewrite Hg.
    destruct (het_str_cases g) as [(H1 & b & Hb)|(H1 & Hb)]; rewrite Hb.
    - cbn [bind]. rewrite IH; [reflexivity|].
      apply Exists_cons in Hbad as [(g' & Hg' & Hne)|Hbad]; [|assumption].
      congruence.
    - reflexivity. }
  now rewrite H.
Qed.

Lemma filter_hets_raises_on_bad_genotype_witness :
  filter_hets (read_csv [mkVariantLine (CStr "chrX") (CInt 150) (CStr "A")
                                       (CStr "G") (CStr "G")])
  = Raise ValueError.
Proof.
  apply filter_hets_raises_on_bad_genotype.
  - repeat constructor. eexists. reflexivity.
  - constructor. exists "G". split; [reflexivity|]. discriminate.
Defined.



(** * Further properties of the aggregator *)

(** ** Tables that lack a column *)

Lemma eval_raise (cols : list string) (row : list cell) (e : expr) (x : exn) :
  eval cols row e = Raise x -> x = KeyError \/ x = TypeError.
Proof.
  induction e as [n|e1 IH1 e2 IH2]; simpl.
  - unfold getitem. destruct (index_of n cols); [|intros [= <-]; auto].
    destruct (row !! n0) as [[| |]|]; simpl; intros [= <-]; auto.
  - destruct (eval cols row e1); simpl; [|intros [= <-]; auto].
    destruct (eval cols row e2); simpl; [discriminate|intros [= <-]; auto].
Qed.

Lemma filterM_raise {A} (f : A -> result bool) (l : list A) (x : exn) :
  filterM f l = Raise x -> exists a, In a l /\ f a = Raise x.
Proof.
  induction l as [|a l IH]; simpl; [discriminate|].
  destruct (f a) eqn:Ha; simpl.
  - destruct (filterM f l); simpl; [discriminate|].
    intros [= <-]. destruct (IH eq_refl) as (a' & ? & ?). eauto.
  - intros [= <-]. eauto.
Qed.

Lemma targ_frac_raise (df : DataFrame) (e : expr) (x : exn) :
  targ_frac df e = Raise x -> x <> FileNotFoundError.
Proof.
  unfold targ_frac, query. destruct (resolves (columns df) e).
  - destruct (filterM _ (rows df)) eqn:E; simpl; [discriminate|].
    intros [= <-]. apply filterM_raise in E as (row & _ & E).
    apply eval_raise in E as [->| ->]; discriminate.
  - intros [= <-]. discriminate.
Qed.

Lemma targ_frac_unresolved (df : DataFrame) (e : expr) :
  resolves (columns df) e = false -> targ_frac df e = Raise NameError.
Proof. intros H. unfold targ_frac, query. now rewrite H. Qed.

Lemma cas_body_fine (gene : string) (df : DataFrame) (cas : string) (s : State) :
  fine (cas_body gene df cas s).
Proof.
  unfold cas_body, fine, fatal.
  destruct (String.eqb cas "SpCas9_VQR_1");
    [|destruct (String.eqb cas "SpCas9_VQR_2"); [now left|]];
    unfold bindS, genes_append, cases_append, liftS, perc_ppl_targ_append;
    cbn [fst snd];
    match goal with
    | |- context [targ_frac df ?e] =>
        destruct (targ_frac df e) as [v|x] eqn:E;
        [now left | right; exists x; split;
                    [reflexivity | exact (targ_frac_raise _ _ _ E)]]
    end.
Qed.

Lemma cas_body_fatal (gene : string) (df : DataFrame) (cas : string) (s : State) :
  String.eqb cas "SpCas9_VQR_2" = false ->
  resolves (columns df)
    (if String.eqb cas "SpCas9_VQR_1"
     then QOr (QCol "targ_SpCas9_VQR_1") (QCol "targ_SpCas9_VQR_2")
     else QCol ("targ_" +:+ cas)) = false ->
  fatal (cas_body gene df cas s).
Proof.
  intros H2 Hres. unfold cas_body, fatal. rewrite H2.
  destruct (String.eqb cas "SpCas9_VQR_1");
    unfold bindS, genes_append, cases_append, liftS, perc_ppl_targ_append;
    cbn [fst snd]; rewrite (targ_frac_unresolved _ _ Hres);
    exists NameError; (split; [reflexivity|discriminate]).
Qed.

Lemma for_eachS_fine {A} (body : A -> St unit) (l : list A) :
  (forall a s, fine (body a s)) -> forall s, fine (for_eachS body l s).
Proof.
  intros Hb. induction l as [|a l IH]; intros s; [now left|].
  cbn [for_eachS]. unfold bindS.
  destruct (Hb a s) as [H|(x & H & Hx)]; destruct (body a s) as [s' r];
    cbn [snd] in H; subst r.
  - apply IH.
  - right. exists x. auto.
Qed.

Lemma for_eachS_fatal {A} (body : A -> St unit) (l : list A) (bad : A) :
  (forall a s, fine (body a s)) -> In bad l ->
  (forall s, fatal (body bad s)) -> forall s, fatal (for_eachS body l s).
Proof.
  intros Hb Hin Hbad. induction l as [|a l IH]; intros s; [contradiction|].
  cbn [for_eachS]. unfold bindS. destruct Hin as [->|Hin].
  - destruct (Hbad s) as (x & H & Hx). destruct (body bad s) as [s' r].
    cbn [snd] in H. subst r. exists x. auto.
  - destruct (Hb a s) as [H|(x & H & Hx)]; destruct (body a s) as [s' r];
      cbn [snd] in H; subst r.
    + now apply IH.
    + exists x. auto.
Qed.

Lemma gene_body_fine (fs : gmap string DataFrame) (argv2 : string) (n : Z)
    (gene : string) (s : State) :
  fine (gene_body fs argv2 n gene s).
Proof.
  unfold gene_body, try_except_FileNotFoundError, read_hdf.
  unfold bindS at 1 2 3. unfold counter_incr, print_remaining, liftS.
  destruct (fs !! (argv2 +:+ gene +:+ ".h5")) as [df|]; [|now left].
  unfold bindS at 1 2 3. unfold genes_append, cases_append.
  destruct (targ_frac df (QCol "targ_all")) as [v|x] eqn:E.
  - unfold bindS at 1. unfold perc_ppl_targ_append.
    match goal with
    | |- context [for_eachS ?b ?l ?s0] =>
        destruct (for_eachS_fine b l (cas_body_fine gene df) s0)
          as [H|(x & H & Hx)];
        destruct (for_eachS b l s0) as [s' r]; cbn [snd] in H; subst r
    end.
    + now left.
    + right. exists x. split; [|assumption]. now destruct x.
  - pose proof (targ_frac_raise _ _ _ E) as Hx.
    right. exists x. split; [|assumption]. now destruct x.
Qed.

Ltac pick_cas c :=
  exists c; split; [unfold cas_list; simpl; tauto|];
  split; [reflexivity|];
  simpl; cbv beta iota delta [String.append]; cbn [resolves];
  match goal with H : index_of _ _ = None |- _ => rewrite H end;
  now rewrite ?andb_false_r.

Lemma missing_column_step (df : DataFrame) (n : string) :
  In n targ_columns -> index_of n (columns df) = None ->
  resolves (columns df) (QCol "targ_all") = false \/
  exists cas, In cas cas_list /\ String.eqb cas "SpCas9_VQR_2" = false /\
    resolves (columns df)
      (if String.eqb cas "SpCas9_VQR_1"
       then QOr (QCol "targ_SpCas9_VQR_1") (QCol "targ_SpCas9_VQR_2")
       else QCol ("targ_" +:+ cas)) = false.
Proof.
  intros Hin Hnone. unfold targ_columns, cas_list in Hin.
  cbn [map In] in Hin. cbv beta iota delta [String.append] in Hin.
  destruct Hin as [<-|Hin]; [left; cbn [resolves]; now rewrite Hnone|].
  right.
  repeat (destruct Hin as [<-|Hin];
          [first [ pick_cas "SpCas9" | pick_cas "SpCas9_VRER"
                 | pick_cas "SpCas9_EQR" | pick_cas "SpCas9_VQR_1"
                 | pick_cas "StCas9" | pick_cas "StCas9_2"
                 | pick_cas "SaCas9" | pick_cas "SaCas9_KKH"
                 | pick_cas "nmCas9" | pick_cas "cjCas9" | pick_cas "cpf1" ]|]).
  contradiction.
Qed.

Lemma gene_body_fatal (fs : gmap string DataFrame) (argv2 : string) (n : Z)
    (gene : string) (df : DataFrame) (col : string) (s : State) :
  fs !! table_path argv2 gene = Some df ->
  In col targ_columns -> index_of col (columns df) = None ->
  fatal (gene_body fs argv2 n gene s).
Proof.
  intros Hfs Hin Hnone.
  unfold gene_body, try_except_FileNotFoundError, read_hdf.
  unfold bindS at 1 2 3. unfold counter_incr, print_remaining, liftS.
  fold (table_path argv2 gene). rewrite Hfs.
  unfold bindS at 1 2 3. unfold genes_append, cases_append.
  destruct (missing_column_step df col Hin Hnone)
    as [Hall|(cas & Hcas & H2 & Hres)].
  - rewrite (targ_frac_unresolved _ _ Hall).
    exists NameError. split; [reflexivity|discriminate].
  - destruct (targ_frac df (QCol "targ_all")) as [v|x] eqn:E.
    + unfold bindS at 1. unfold perc_ppl_targ_append.
      match goal with
      | |- context [for_eachS ?b ?l ?s0] =>
          destruct (for_eachS_fatal b l cas (cas_body_fine gene df) Hcas
                      (fun s1 => cas_body_fatal gene df cas s1 H2 Hres) s0)
            as (x & H & Hx);
          destruct (for_eachS b l s0) as [s' r]; cbn [snd] in H; subst r
      end.
      exists x. split; [|assumption]. now destruct x.
    + pose proof (targ_frac_raise _ _ _ E) as Hx.
      exists x. split; [|assumption]. now destruct x.
Qed.

(** X15: a table that is found but lacks one of the thirteen columns the
    aggregator reads is not skipped like a missing table: wherever its gene
    stands in the list, the run ends in an exception that the loop does not
    catch, and neither output file is written. *)
Theorem missing_column_is_fatal (fs : gmap string DataFrame)
    (genes_eval : list string) (argv2 argv3 gene col : string)
    (df : DataFrame) :
  In gene genes_eval ->
  fs !! table_path argv2 gene = Some df ->
  In col targ_columns ->
  index_of col (columns df) = None ->
  exists x, script fs genes_eval argv2 argv3 = Raise x /\
            x <> FileNotFoundError.
Proof.
  intros Hgene Hfs Hcol Hnone. unfold script.
  destruct (for_eachS_fatal
              (gene_body fs argv2 (Z.of_nat (length genes_eval)))
              genes_eval gene
              (gene_body_fine fs argv2 _) Hgene
              (fun s => gene_body_fatal fs argv2 _ gene df col s Hfs Hcol Hnone)
              init) as (x & H & Hx).
  destruct (for_eachS _ genes_eval init) as [s' r]. cbn [snd] in H. subst r.
  exists x. auto.
Qed.

Lemma missing_column_is_fatal_witness :
  exists x, script short_fs ["TP53"; "BRCA1"] "tables/" "out/" = Raise x /\
            x <> FileNotFoundError.
Proof.
  apply (missing_column_is_fatal short_fs ["TP53"; "BRCA1"] "tables/" "out/"
           "BRCA1" "targ_cpf1"
           {| columns := ["targ_all"]; rows := [[CBool true]; [CBool false]] |}).
  - simpl. tauto.
  - reflexivity.
  - unfold targ_columns, cas_list. simpl. tauto.
  - reflexivity.
Defined.

(** ** Order and size of the output *)

Lemma length_gene_block (gene : string) (df : DataFrame) :
  length (gene_block gene df) = 12 /\
  map row_gene (gene_block gene df) = repeat gene 12.
Proof. split; reflexivity. Qed.

(** X16: when the tables found are targetability tables, the run ends
    normally and writes both files under the output prefix. The summary
    holds twelve rows for each gene whose table is found, gene after gene
    in the order of the list (a gene listed twice is there twice); the other
    file holds the genes without a table, one per line, in the order of the
    list. *)
Theorem script_output_in_order (fs : gmap string DataFrame)
    (genes_eval : list string) (argv2 argv3 : string) :
  tables_ok fs argv2 genes_eval ->
  exists out,
    script fs genes_eval argv2 argv3 = Ok out /\
    not_eval_path out = argv3 +:+ "not_eval.txt" /\
    summary_path out = argv3 +:+ "targ_per_gene_and_cas.tsv" /\
    map row_gene (summary out)
    = flat_map (fun gene => repeat gene 12)
               (List.filter (found fs argv2) genes_eval) /\
    length (summary out)
    = 12 * length (List.filter (found fs argv2) genes_eval) /\
    not_eval_txt out
    = not_eval_lines (List.filter (missing fs argv2) genes_eval).
Proof.
  intros Hok. rewrite (script_eq _ _ _ _ Hok). eexists. split; [reflexivity|].
  cbn [not_eval_path summary_path summary not_eval_txt].
  split; [reflexivity|]. split; [reflexivity|].
  assert (H : map row_gene (flat_map (found_rows fs argv2) genes_eval)
              = flat_map (fun gene => repeat gene 12)
                         (List.filter (found fs argv2) genes_eval)).
  { clear Hok. induction genes_eval as [|gene l IH]; [reflexivity|].
    cbn [flat_map List.filter]. rewrite map_app, IH.
    unfold found, missing, found_rows.
    destruct (fs !! table_path argv2 gene) as [df|]; [|reflexivity].
    cbn [negb flat_map]. now rewrite (proj2 (length_gene_block gene df)). }
  split; [exact H|]. split; [|reflexivity].
  rewrite <- (length_map row_gene), H. clear H.
  induction (List.filter (found fs argv2) genes_eval) as [|g l IH];
    [reflexivity|].
  cbn [flat_map]. rewrite length_app, IH, repeat_length. cbn [length]. lia.
Qed.

Lemma script_output_in_order_witness :
  exists out,
    script cohort_fs ["TP53"; "BRCA1"; "TP53"] "tables/" "out/" = Ok out /\
    length (summary out) = 12 /\
    not_eval_txt out = "TP53" +:+ String "010" ("TP53" +:+ String "010" "").
Proof.
  destruct (script_output_in_order cohort_fs ["TP53"; "BRCA1"; "TP53"]
              "tables/" "out/") as (out & Hrun & _ & _ & _ & Hlen & Htxt).
  - intros gene df [<-|[<-|[<-|[]]]] H; vm_compute in H; try discriminate.
    injection H as <-. reflexivity.
  - exists out. split; [exact Hrun|]. split; [exact Hlen|exact Htxt].
Defined.

(** ** The countdown *)

Lemma genes_loop_printed (fs : gmap string DataFrame) (argv2 : string)
    (n : Z) (l : list string) (s : State) :
  tables_ok fs argv2 l ->
  exists s',
    for_eachS (gene_body fs argv2 n) l s = (s', Ok tt) /\
    counter s' = (counter s + Z.of_nat (length l))%Z /\
    printed s'
    = printed s ++ map (fun i => (n - (counter s + 1 + Z.of_nat i))%Z)
                       (seq 0 (length l)).
Proof.
  revert s. induction l as [|gene l IH]; intros s Hok.
  - exists s. cbn [for_eachS length seq map]. rewrite app_nil_r.
    repeat split. cbn. lia.
  - assert (Hok' : tables_ok fs argv2 l).
    { intros g df Hg. apply Hok. now right. }
    cbn [for_eachS]. unfold bindS.
    assert (Hstep : exists s1, gene_body fs argv2 n gene s = (s1, Ok tt) /\
                               counter s1 = (counter s + 1)%Z /\
                               printed s1
                               = printed s ++ [(n - (counter s + 1))%Z]).
    { destruct (fs !! table_path argv2 gene) as [df|] eqn:Hfs.
      - rewrite (gene_body_found fs argv2 n gene df s Hfs)
          by (eapply Hok; [now left|eauto]).
        eexists. repeat split.
      - rewrite (gene_body_missing fs argv2 n gene s Hfs).
        eexists. repeat split. }
    destruct Hstep as (s1 & -> & Hc & Hp).
    destruct (IH s1 Hok') as (s' & Hrun & Hc' & Hp').
    exists s'. split; [exact Hrun|]. split.
    + rewrite Hc', Hc. cbn [length]. lia.
    + rewrite Hp', Hp, Hc, <- app_assoc. f_equal.
      cbn [length seq map app]. f_equal.
      * f_equal. lia.
      * rewrite <- seq_shift, map_map. apply map_ext. intros i. lia.
Qed.

(** X17: when the tables found are targetability tables, the loop prints
    one number for each gene of the list, found or not: the number of genes
    for the first, one less for each following gene, 1 for the last. *)
Theorem countdown_printed (fs : gmap string DataFrame) (argv2 : string)
    (genes_eval : list string) :
  tables_ok fs argv2 genes_eval ->
  exists s',
    for_eachS (gene_body fs argv2 (Z.of_nat (length genes_eval)))
              genes_eval init = (s', Ok tt) /\
    printed s'
    = map (fun i => Z.of_nat (length genes_eval - i)) (seq 0 (length genes_eval)).
Proof.
  intros Hok.
  destruct (genes_loop_printed fs argv2 (Z.of_nat (length genes_eval))
              genes_eval init Hok) as (s' & Hrun & _ & Hp).
  exists s'. split; [exact Hrun|]. rewrite Hp. cbn [printed counter init app].
  apply map_ext_in. intros i Hi. apply in_seq in Hi. lia.
Qed.

Lemma countdown_printed_witness :
  exists s',
    for_eachS (gene_body cohort_fs "tables/" 2) ["BRCA1"; "TP53"] init
    = (s', Ok tt) /\
    printed s' = [2%Z; 1%Z].
Proof.
  apply (countdown_printed cohort_fs "tables/" ["BRCA1"; "TP53"]).
  exact cohort_tables_ok.
Defined.

(** ** What the run never does *)


Lemma for_eachS_inv {A} (P : State -> Prop) (body : A -> St unit) (l : list A) :
  (forall a s s', P s -> body a s = (s', Ok tt) -> P s') ->
  forall s s', P s -> for_eachS body l s = (s', Ok tt) -> P s'.
Proof.
  intros Hb. induction l as [|a l IH]; intros s s' Hs.
  - intros [= <-]. exact Hs.
  - cbn [for_eachS]. unfold bindS.
    destruct (body a s) as [s1 [[]|x]] eqn:E; [|discriminate].
    apply IH. exact (Hb a s s1 Hs E).
Qed.

Lemma cas_body_aligned (gene : string) (df : DataFrame) (cas : string)
    (s s' : State) :
  aligned s -> cas_body gene df cas s = (s', Ok tt) -> aligned s'.
Proof.
  intros [H1 H2]. unfold cas_body.
  destruct (String.eqb cas "SpCas9_VQR_1");
    [|destruct (String.eqb cas "SpCas9_VQR_2");
      [intros [= <-]; now split|]];
    unfold bindS, genes_append, cases_append, liftS, perc_ppl_targ_append;
    match goal with
    | |- context [targ_frac df ?e] => destruct (targ_frac df e) as [v|x]
    end; intros [= <-]; unfold aligned; cbn [cases genes perc_ppl_targ];
    rewrite !length_app; cbn [length]; lia.
Qed.

Lemma gene_body_aligned (fs : gmap string DataFrame) (argv2 : string) (n : Z)
    (gene : string) (s s' : State) :
  aligned s -> gene_body fs argv2 n gene s = (s', Ok tt) -> aligned s'.
Proof.
  intros [H1 H2].
  unfold gene_body, try_except_FileNotFoundError, read_hdf.
  unfold bindS at 1 2 3. unfold counter_incr, print_remaining, liftS.
  destruct (fs !! (argv2 +:+ gene +:+ ".h5")) as [df|].
  - unfold bindS at 1 2 3. unfold genes_append, cases_append.
    destruct (targ_frac df (QCol "targ_all")) as [v|x] eqn:E.
    + unfold bindS at 1. unfold perc_ppl_targ_append.
      match goal with
      | |- context [for_eachS ?b ?l ?s0] =>
          pose proof (for_eachS_inv aligned b l
                        (fun a => cas_body_aligned gene df a) s0) as Hinv;
          destruct (for_eachS_fine b l (cas_body_fine gene df) s0)
            as [H|(x & H & Hx)];
          destruct (for_eachS b l s0) as [s1 r]; cbn [snd] in H; subst r
      end.
      * intros [= <-]. apply (Hinv s1); [|reflexivity].
        unfold aligned. cbn [cases genes perc_ppl_targ].
        rewrite !length_app. cbn [length]. lia.
      * destruct x; try discriminate; contradiction.
    + pose proof (targ_frac_raise _ _ _ E) as Hx.
      destruct x; try discriminate; contradiction.
  - unfold not_eval_append. intros [= <-]. now split.
Qed.

(** X19: whatever the tables hold, when the loop over the genes ends
    normally the three lists that become the columns of the summary have
    the same length, so that building the summary does not fail and both
    files are written. *)
Theorem summary_lists_aligned (fs : gmap string DataFrame)
    (genes_eval : list string) (argv2 argv3 : string) :
  snd (for_eachS (gene_body fs argv2 (Z.of_nat (length genes_eval)))
                 genes_eval init) = Ok tt ->
  aligned (fst (for_eachS (gene_body fs argv2 (Z.of_nat (length genes_eval)))
                          genes_eval init)) /\
  exists out,
    script fs genes_eval argv2 argv3 = Ok out /\
    length (summary out)
    = length (genes (fst (for_eachS
                            (gene_body fs argv2 (Z.of_nat (length genes_eval)))
                            genes_eval init))).
Proof.
  intros H. unfold script.
  destruct (for_eachS _ genes_eval init) as [s' r] eqn:E.
  cbn [fst snd] in *. subst r.
  assert (Ha : aligned s').
  { apply (for_eachS_inv aligned
             (gene_body fs argv2 (Z.of_nat (length genes_eval))) genes_eval
             (gene_body_aligned fs argv2 (Z.of_nat (length genes_eval)))
             init s');
      [split; reflexivity | exact E]. }
  split; [exact Ha|]. destruct Ha as [H1 H2]. unfold overall_df.
  rewrite H1, H2, !Nat.eqb_refl. cbn [andb]. eexists. split; [reflexivity|].
  cbn [summary]. rewrite <- H2.
  revert H1 H2. generalize (cases s') (genes s') (perc_ppl_targ s').
  induction l as [|c cs IH]; intros [|g gs] [|p ps]; cbn [length zip3];
    try discriminate; [reflexivity|].
  intros [= H1] [= H2]. now rewrite (IH gs ps H1 H2).
Qed.

Lemma summary_lists_aligned_witness :
  exists out,
    script cohort_fs ["TP53"; "BRCA1"] "tables/" "out/" = Ok out /\
    length (summary out) = 12.
Proof.
  destruct (summary_lists_aligned cohort_fs ["TP53"; "BRCA1"] "tables/" "out/")
    as (_ & out & Hrun & Hlen).
  - vm_compute. reflexivity.
  - exists out. split; [exact Hrun|]. rewrite Hlen. vm_compute. reflexivity.
Defined.
